(** * logrus (bnulwh fork): level gating, exit behaviour and the
      local-filesystem hook

    A shallow embedding of three Go sources: [logger.go] (the [Logger]
    methods), [hooks/lfs/lfs.go] with [SimpleFormatter] (the hook that
    writes entries to files or writers) and the in-package copy of
    [ConfigLocalFileSystemLogger].

    Conventions.
    - A Go [string] and a [[]byte] are both byte sequences: [string].
    - [Level] is [uint32]: a natural number below [2^32].  The code only
      stores and compares levels, so no wrap-around occurs.
    - A nil map, a nil interface and a nil pointer are [None]; a writer
      that is nil inside a map or inside [io.MultiWriter], where the code
      uses it unchecked, is [nil_Writer].
    - Pointer receivers are modelled by passing the object in and out.
      Formatter and logger pointers held in an interface, and the
      [Logger] of an entry, are non-nil.
    - Locks ([sync.Mutex], [MutexWrap]) guard a sequential model and are
      omitted.
    - Effects are recorded in a [World]: the trace of external events and
      the store of [bytes.Buffer] objects. *)

From Stdlib Require Import ZArith NArith String Ascii List DecimalString.
From stdpp Require Import base option list gmap strings.

Open Scope string_scope.

(** ** Levels *)

(** [type Level uint32] *)
Definition Level : Type := N.

(** Modelled from the spec: the level constants (logrus.go is not among
    the sources), "Panic < Fatal < Error < Warn < Info < Debug < Trace",
    numbered from zero. *)
Definition PanicLevel : Level := 0%N.
Definition FatalLevel : Level := 1%N.
Definition ErrorLevel : Level := 2%N.
Definition WarnLevel : Level := 3%N.
Definition InfoLevel : Level := 4%N.
Definition DebugLevel : Level := 5%N.
Definition TraceLevel : Level := 6%N.

(** Modelled from the spec: [AllLevels] (logrus.go is not among the
    sources), the fixed and closed set of valid levels. *)
Definition AllLevels : list Level :=
  [PanicLevel; FatalLevel; ErrorLevel; WarnLevel; InfoLevel; DebugLevel;
   TraceLevel].

(** Go's [a >= b] on [Level]. *)
Definition Level_ge (a b : Level) : bool := (b <=? a)%N.

(** ** Strings: the fragments of [fmt], [strings] and [time] the code uses *)

Definition error : Type := string.

Fixpoint repeat_ascii (n : nat) (c : ascii) : string :=
  match n with
  | O => ""
  | S n' => String c (repeat_ascii n' c)
  end.

(** Left padding to a minimal width, as [%8s] and the zero-padded fields
    of a time layout do.  Widths count bytes; the padded texts are ASCII. *)
Definition pad_left (width : nat) (c : ascii) (s : string) : string :=
  repeat_ascii (width - String.length s) c +:+ s.

(** [%d] *)
Definition fmt_d (z : Z) : string := NilZero.string_of_int (Z.to_int z).

Definition fmt_N0 (width : nat) (n : N) : string :=
  pad_left width "0"%char (NilZero.string_of_uint (N.to_uint n)).

Fixpoint string_drop (n : nat) (s : string) : string :=
  match n, s with
  | O, _ => s
  | S _, "" => ""
  | S n', String _ s' => string_drop n' s'
  end.

Fixpoint LastIndex_from (s substr : string) (i acc : Z) : Z :=
  let acc' := if String.prefix substr s then i else acc in
  match s with
  | "" => acc'
  | String _ s' => LastIndex_from s' substr (i + 1) acc'
  end.

(** [strings.LastIndex]: the byte index of the last occurrence, or -1. *)
Definition strings_LastIndex (s substr : string) : Z :=
  LastIndex_from s substr 0 (-1).

(** [runtime.Func], as far as the code reads it: its [Name()]. *)
Record runtime_Func := { Func_Name : string }.

(** [getFuncName] *)
Definition getFuncName (f : option runtime_Func) : string :=
  match f with
  | Some f =>
      let fullFnName := Func_Name f in
      let pos := strings_LastIndex fullFnName "." in
      string_drop (Z.to_nat (pos + 1)) fullFnName
  | None => ""
  end.

(** [time.Time] as the calendar fields that [Format] reads. *)
Record Time := {
  Year : N; Month : N; Day : N;
  Hour : N; Minute : N; Second : N; Nanosecond : N
}.

(** [t.Format("2006-01-02 15:04:05.000")]: zero-padded fields, the
    fraction truncated to milliseconds. *)
Definition Time_Format_millis (t : Time) : string :=
  fmt_N0 4 (Year t) +:+ "-" +:+ fmt_N0 2 (Month t) +:+ "-" +:+
  fmt_N0 2 (Day t) +:+ " " +:+ fmt_N0 2 (Hour t) +:+ ":" +:+
  fmt_N0 2 (Minute t) +:+ ":" +:+ fmt_N0 2 (Second t) +:+ "." +:+
  fmt_N0 3 (Nanosecond t / 1000000)%N.

(** ** Writers *)

(** The rotating writer that [rotatelogs.New] builds from a file name
    pattern and its options. *)
Record RotateLogs := {
  pattern : string;
  WithLinkName : string;
  WithMaxAge : Z;
  WithRotationTime : Z
}.

(** The values of [io.Writer] that occur: a rotating writer, a writer
    supplied by the caller (named), the result of [io.MultiWriter], and
    a writer that is nil: the nil interface stored as a map value, or a
    nil pointer held in the interface, such as the [*RotateLogs] that a
    failed [rotatelogs.New] returns. *)
#[warnings="-register-all"]
Inductive Writer :=
| RotateLogsWriter (rl : RotateLogs)
| NamedWriter (name : string)
| multiWriter (writers : list Writer)
| nil_Writer.

(** The name under which a leaf writer appears in the trace. *)
Definition dest_of_RotateLogs (rl : RotateLogs) : string := pattern rl.

(** [func(int)] values stored in [Logger.ExitFunc]. *)
Inductive exitFunc :=
| os_Exit
| user_exit (id : nat).

(** How the message of a log call is built. *)
Inductive Message :=
| Sprint (args : list string)
| Sprintf (format : string) (args : list string)
| Sprintln (args : list string).

(** ** The world *)

Inductive Event :=
| EvWrite (dest : string) (p : string) (n : Z) (err : option error)
| EvMkdirAll (dir : string)
| EvOpenFile (path : string) (err : option error)
| EvFileWrite (path : string) (p : string)
| EvClose (path : string)
| EvLogPrintln (text : string)
| EvCallFn (id : nat)
| EvConsole (level : Level) (msg : Message)
| EvFireHooks (level : Level) (msg : Message)
| EvRunHandlers
| EvExitFunc (f : exitFunc) (code : Z).

Record World := {
  events : list Event;          (* oldest first *)
  buffers : gmap nat string     (* the contents of each bytes.Buffer *)
}.

Definition emit (e : Event) (w : World) : World :=
  {| events := (events w ++ [e])%list; buffers := buffers w |}.

(** How a Go call ends. *)
Inductive Outcome (A : Type) :=
| Returned (a : A)
| Panicked (v : string)
| Exited (code : Z).
Arguments Returned {A} a.
Arguments Panicked {A} v.
Arguments Exited {A} code.

Definition Go (A : Type) : Type := World -> Outcome A * World.

#[global] Instance Go_ret : MRet Go := fun A a w => (Returned a, w).
#[global] Instance Go_bind : MBind Go := fun A B f m w =>
  match m w with
  | (Returned a, w') => f a w'
  | (Panicked v, w') => (Panicked v, w')
  | (Exited c, w') => (Exited c, w')
  end.

(** The runtime error of a call or field access through nil. *)
Definition nil_dereference : string :=
  "invalid memory address or nil pointer dereference".

Definition trace (e : Event) : Go unit := fun w => (Returned tt, emit e w).
Definition panic {A : Type} (v : string) : Go A := fun w => (Panicked v, w).

(** [defer cleanup] around [body]: the cleanup runs however the body ends. *)
Definition defer {A : Type} (cleanup : Go unit) (body : Go A) : Go A :=
  fun w =>
    let '(o, w') := body w in
    let '(_, w'') := cleanup w' in
    (o, w'').

(** ** Entries *)

(** [runtime.Frame], as far as the code reads it. *)
Record Frame := {
  File : string;
  Line : Z;
  Func : option runtime_Func
}.

(** [Entry], with the fields the sources read.  [Logger_ReportCaller] is
    [entry.Logger.ReportCaller], the one field read through the
    back-reference; [Buffer] is the address of a [bytes.Buffer]. *)
Record Entry := {
  Logger_ReportCaller : bool;
  Data : gmap string string;
  Entry_Time : Time;
  Entry_Level : Level;
  Caller : option Frame;
  Entry_Message : string;
  Buffer : option nat;
  Entry_ConsoleLevel : Level;
  Entry_HookLevel : Level
}.

(** ** Formatters *)

Record SimpleFormatter := { Colored : bool }.

(** [TextFormatter] (its file is not among the sources): the flag the
    hook sets, and a tag standing for the rest of its configuration. *)
Record TextFormatter := {
  DisableColors : bool;
  TextFormatter_rest : nat
}.

(** What the surroundings of the program decide: the standard-library
    functions on paths, the outcome of each write and open (which may
    depend on everything that happened before), and the code of this
    repository that renders a level or implements another formatter. *)
Class Env := {
  Level_String : Level -> string;
  TextFormatter_Format : TextFormatter -> Entry -> string * option error;
  filepath_Base : string -> string;
  filepath_Dir : string -> string;
  path_Join : string -> string -> string;
  Write_result : list Event -> string -> string -> Z * option error;
  OpenFile_result : list Event -> string -> option error
}.

(** Whether [rotatelogs.New] fails for the given pattern and options
    (a pattern that is not a valid time format, for one), and with what
    error.  This too is for the surroundings to decide. *)
Class Rotation := {
  rotatelogs_New_error : RotateLogs -> option error
}.

(** The values of the [Formatter] interface, by dynamic type. *)
Inductive Formatter :=
| TextFormatter_ptr (f : TextFormatter)
| SimpleFormatter_ptr (f : SimpleFormatter)
| OtherFormatter (format : Entry -> string * option error).

Definition ESC : string := String (ascii_of_nat 27) "".
Definition LF : string := String (ascii_of_nat 10) "".

(** The contents of the buffer at an address; a buffer starts empty. *)
Definition Buffer_contents (w : World) (a : nat) : string :=
  default "" (buffers w !! a).

Definition Buffer_store (a : nat) (b : string) (w : World) : World :=
  {| events := events w; buffers := <[a := b]> (buffers w) |}.

(** [b.WriteString(s)] on the contents [b]. *)
Definition WriteString (b s : string) : string := b +:+ s.

Section Program.
Context `{Env}.

(** The [b.WriteString] calls of [SimpleFormatter.Format], in order, on
    the contents [b] of the buffer in use.  A level outside the switch
    gets no colour prefix. *)
Definition SimpleFormatter_writes (f : SimpleFormatter) (entry : Entry)
  (b : string) : string :=
  let b :=
    if Colored f then
      let l := Entry_Level entry in
      if (l =? TraceLevel)%N || (l =? DebugLevel)%N then
        WriteString b (ESC +:+ "[34;1m")
      else if (l =? InfoLevel)%N then
        WriteString b (ESC +:+ "[32;1m")
      else if (l =? WarnLevel)%N then
        WriteString b (ESC +:+ "[35;1m")
      else if (l =? ErrorLevel)%N || (l =? FatalLevel)%N
              || (l =? PanicLevel)%N then
        WriteString b (ESC +:+ "[31;1m")
      else b
    else b in
  let b :=
    WriteString b
      ("[" +:+ Time_Format_millis (Entry_Time entry) +:+ "] [" +:+
       pad_left 8 " "%char (Level_String (Entry_Level entry)) +:+ "] ") in
  let b :=
    match Caller entry with
    | Some caller =>
        if Logger_ReportCaller entry then
          WriteString b
            ("[ " +:+ filepath_Base (File caller) +:+ " : " +:+
             fmt_d (Line caller) +:+ " " +:+ getFuncName (Func caller) +:+
             " ]")
        else b
    | None => b
    end in
  let b := WriteString b (Entry_Message entry) in
  let b := if Colored f then WriteString b (ESC +:+ "[0m") else b in
  WriteString b LF.

(** [SimpleFormatter.Format]: the entry's buffer if it has one, a fresh
    one otherwise; the writes; the contents of the buffer. *)
Definition SimpleFormatter_Format (f : SimpleFormatter) (entry : Entry)
  : Go (string * option error) := fun w =>
  match Buffer entry with
  | Some a =>
      let b := SimpleFormatter_writes f entry (Buffer_contents w a) in
      (Returned (b, None), Buffer_store a b w)
  | None =>
      let b := SimpleFormatter_writes f entry "" in
      (Returned (b, None), w)
  end.

(** [formatter.Format(entry)] through the interface. *)
Definition Formatter_Format (fm : Formatter) (entry : Entry)
  : Go (string * option error) :=
  match fm with
  | SimpleFormatter_ptr f => SimpleFormatter_Format f entry
  | TextFormatter_ptr f => mret (TextFormatter_Format f entry)
  | OtherFormatter format => mret (format entry)
  end.

(** ** Writing *)

(** [Write] on a leaf writer: the surroundings decide the result. *)
Definition leaf_Write (dest p : string) : Go (Z * option error) := fun w =>
  let r := Write_result (events w) dest p in
  (Returned r, emit (EvWrite dest p r.1 r.2) w).

Definition ErrShortWrite : error := "short write".

Definition len (p : string) : Z := Z.of_nat (String.length p).

(** [w.Write(p)].  For the writer built by [io.MultiWriter] this is the
    standard library's loop: each listed writer in turn; at the first
    error, or the first short write, the loop returns.  A call on a nil
    writer panics. *)
Fixpoint Writer_Write (wr : Writer) (p : string) : Go (Z * option error) :=
  match wr with
  | RotateLogsWriter rl => leaf_Write (dest_of_RotateLogs rl) p
  | NamedWriter name => leaf_Write name p
  | nil_Writer => panic nil_dereference
  | multiWriter ws =>
      (fix range (ws : list Writer) : Go (Z * option error) :=
         match ws with
         | [] => mret (len p, None)
         | w :: ws' =>
             r ← Writer_Write w p;
             match r.2 with
             | Some e => mret (r.1, Some e)
             | None =>
                 if (r.1 =? len p)%Z then range ws'
                 else mret (r.1, Some ErrShortWrite)
             end
         end) ws
  end.

(** ** The local-filesystem hook (hooks/lfs/lfs.go) *)

(** [var defaultFormatter = &logrus.TextFormatter{DisableColors: true}] *)
Definition defaultFormatter : Formatter :=
  TextFormatter_ptr {| DisableColors := true; TextFormatter_rest := 0 |}.

Record LfsHook := {
  paths : option (gmap Level string);
  writers : option (gmap Level Writer);
  levels : list Level;
  formatter : option Formatter;
  defaultPath : string;
  defaultWriter : option Writer;
  hasDefaultPath : bool;
  hasDefaultWriter : bool
}.

(** [&LfsHook{lock: new(sync.Mutex)}]: every other field has its zero
    value. *)
Definition LfsHook_zero : LfsHook :=
  {| paths := None; writers := None; levels := []; formatter := None;
     defaultPath := ""; defaultWriter := None;
     hasDefaultPath := false; hasDefaultWriter := false |}.

(** [LfsHook.SetFormatter]; the argument is [None] for a nil interface.
    A [*TextFormatter] is modified in place and then stored, so the hook
    and the caller share one object: the record built here is the new
    state of that object, and [SetFormatter_argument_after] is the same
    state seen from the caller. *)
Definition LfsHook_SetFormatter (hook : LfsHook) (fm : option Formatter)
  : LfsHook :=
  let fm :=
    match fm with
    | None => defaultFormatter
    | Some (TextFormatter_ptr textFormatter) =>
        TextFormatter_ptr
          {| DisableColors := true;
             TextFormatter_rest := TextFormatter_rest textFormatter |}
    | Some other => other
    end in
  {| paths := paths hook; writers := writers hook; levels := levels hook;
     formatter := Some fm;
     defaultPath := defaultPath hook; defaultWriter := defaultWriter hook;
     hasDefaultPath := hasDefaultPath hook;
     hasDefaultWriter := hasDefaultWriter hook |}.


(** [LfsHook.SetDefaultPath] *)
Definition LfsHook_SetDefaultPath (hook : LfsHook) (path : string)
  : LfsHook :=
  {| paths := paths hook; writers := writers hook; levels := levels hook;
     formatter := formatter hook;
     defaultPath := path; defaultWriter := defaultWriter hook;
     hasDefaultPath := true;
     hasDefaultWriter := hasDefaultWriter hook |}.

(** [LfsHook.SetDefaultWriter]; the argument is [None] for a nil
    interface. *)
Definition LfsHook_SetDefaultWriter (hook : LfsHook) (wr : option Writer)
  : LfsHook :=
  {| paths := paths hook; writers := writers hook; levels := levels hook;
     formatter := formatter hook;
     defaultPath := defaultPath hook; defaultWriter := wr;
     hasDefaultPath := hasDefaultPath hook;
     hasDefaultWriter := true |}.

(** The [output interface{}] argument of the constructor, by dynamic
    type.  [Output_other] stands for every remaining type, the nil
    interface included, and carries the text [reflect.TypeOf] prints. *)
Inductive Output :=
| Output_string (s : string)
| Output_Writer (wr : Writer)
| Output_PathMap (m : option (gmap Level string))
| Output_WriterMap (m : option (gmap Level Writer))
| Output_other (type_name : string).

(** The keys a [for level := range m] loop visits.  Go leaves the order
    open; the field that collects them is never read. *)
Definition range_keys {V : Type} (m : option (gmap Level V)) : list Level :=
  match m with
  | Some m => (map_to_list m).*1
  | None => []
  end.

(** [NewLocalFileSystemHook] *)
Definition NewLocalFileSystemHook (output : Output) (fm : option Formatter)
  : Go LfsHook :=
  let hook := LfsHook_SetFormatter LfsHook_zero fm in
  match output with
  | Output_string s => mret (LfsHook_SetDefaultPath hook s)
  | Output_Writer wr => mret (LfsHook_SetDefaultWriter hook (Some wr))
  | Output_PathMap m =>
      mret {| paths := m; writers := writers hook;
              levels := (levels hook ++ range_keys m)%list;
              formatter := formatter hook;
              defaultPath := defaultPath hook;
              defaultWriter := defaultWriter hook;
              hasDefaultPath := hasDefaultPath hook;
              hasDefaultWriter := hasDefaultWriter hook |}
  | Output_WriterMap m =>
      mret {| paths := paths hook; writers := m;
              levels := (levels hook ++ range_keys m)%list;
              formatter := formatter hook;
              defaultPath := defaultPath hook;
              defaultWriter := defaultWriter hook;
              hasDefaultPath := hasDefaultPath hook;
              hasDefaultWriter := hasDefaultWriter hook |}
  | Output_other type_name =>
      panic ("unsupported level map type: " +:+ type_name)
  end.

(** [hook.formatter.Format(entry)] *)
Definition LfsHook_Format (hook : LfsHook) (entry : Entry)
  : Go (string * option error) :=
  match formatter hook with
  | Some fm => Formatter_Format fm entry
  | None => panic nil_dereference
  end.

(** [m != nil] *)
Definition non_nil {A : Type} (m : option A) : bool :=
  match m with
  | Some _ => true
  | None => false
  end.

(** [m[level]] on a map that may be nil. *)
Definition map_index {V : Type} (m : option (gmap Level V)) (level : Level)
  : option V :=
  m ≫= (fun m => m !! level).

(** [LfsHook.ioWrite] *)
Definition LfsHook_ioWrite (hook : LfsHook) (entry : Entry)
  : Go (option error) :=
  let resolved :=
    match map_index (writers hook) (Entry_Level entry) with
    | Some writer => Some (Some writer)
    | None =>
        if hasDefaultWriter hook then Some (defaultWriter hook) else None
    end in
  match resolved with
  | None => mret None
  | Some writer =>
      r ← LfsHook_Format hook entry;
      match r.2 with
      | Some err =>
          _ ← trace (EvLogPrintln
                       ("failed to generate string for entry: " +:+ err));
          mret (Some err)
      | None =>
          match writer with
          | Some writer => r' ← Writer_Write writer r.1; mret r'.2
          | None => panic nil_dereference
          end
      end
  end.

(** [LfsHook.fileWrite] *)
Definition LfsHook_fileWrite (hook : LfsHook) (entry : Entry)
  : Go (option error) :=
  let resolved :=
    match map_index (paths hook) (Entry_Level entry) with
    | Some path => Some path
    | None => if hasDefaultPath hook then Some (defaultPath hook) else None
    end in
  match resolved with
  | None => mret None
  | Some path =>
      let dir := filepath_Dir path in
      _ ← trace (EvMkdirAll dir);
      err ← (fun w =>
               let err := OpenFile_result (events w) path in
               (Returned err, emit (EvOpenFile path err) w));
      match err with
      | Some err =>
          _ ← trace (EvLogPrintln
                       ("failed to open logfile: " +:+ path +:+ " " +:+ err));
          mret (Some err)
      | None =>
          defer (trace (EvClose path))
            (r ← LfsHook_Format hook entry;
             match r.2 with
             | Some err =>
                 _ ← trace (EvLogPrintln
                              ("failed to generate string for entry: "
                               +:+ err));
                 mret (Some err)
             | None =>
                 _ ← trace (EvFileWrite path r.1);
                 mret None
             end)
      end
  end.

(** [LfsHook.Fire] *)
Definition LfsHook_Fire (hook : LfsHook) (entry : Entry)
  : Go (option error) :=
  if non_nil (writers hook) || hasDefaultWriter hook then
    LfsHook_ioWrite hook entry
  else if non_nil (paths hook) || hasDefaultPath hook then
    LfsHook_fileWrite hook entry
  else mret None.

(** [LfsHook.Levels] *)
Definition LfsHook_Levels (hook : LfsHook) : list Level := AllLevels.

(** ** Hooks *)

(** The values of the [Hook] interface: this hook, or another one with
    the levels it declares. *)
Inductive Hook :=
| LfsHook_ptr (hook : LfsHook)
| OtherHook (id : nat) (declared : list Level).

Definition Hook_Levels (hook : Hook) : list Level :=
  match hook with
  | LfsHook_ptr hook => LfsHook_Levels hook
  | OtherHook _ declared => declared
  end.

(** Modelled from the spec: [LevelHooks.Add] (hooks.go is not among the
    sources), "for each level returned by hook.Levels(), append the hook
    to that level's sequence". *)
Definition LevelHooks_Add (hooks : gmap Level (list Hook)) (hook : Hook)
  : gmap Level (list Hook) :=
  foldl (fun (hooks : gmap Level (list Hook)) (level : Level) =>
           <[level := (default [] (hooks !! level) ++ [hook])%list]> hooks)
        hooks (Hook_Levels hook).

(** ** The logger (logger.go) *)

Record Logger := {
  Out : Writer;
  Hooks : gmap Level (list Hook);
  Logger_Formatter : option Formatter;
  ReportCaller : bool;
  ConsoleLevel : Level;
  HookLevel : Level;
  MaxAge : Z;
  entryPool : list Entry;
  ExitFunc : option exitFunc
}.

Definition time_Hour : Z := 3600 * 1000000000.

(** [New] *)
Definition New : Logger :=
  {| Out := NamedWriter "os.Stdout";
     Logger_Formatter := Some (SimpleFormatter_ptr {| Colored := true |});
     Hooks := ∅;
     ConsoleLevel := DebugLevel;
     HookLevel := DebugLevel;
     ExitFunc := Some os_Exit;
     ReportCaller := true;
     MaxAge := time_Hour * 24 * 7;
     entryPool := [] |}.

Definition set_levels (logger : Logger) (console hook : Level) : Logger :=
  {| Out := Out logger; Hooks := Hooks logger;
     Logger_Formatter := Logger_Formatter logger;
     ReportCaller := ReportCaller logger;
     ConsoleLevel := console; HookLevel := hook;
     MaxAge := MaxAge logger; entryPool := entryPool logger;
     ExitFunc := ExitFunc logger |}.

Definition set_entryPool (logger : Logger) (pool : list Entry) : Logger :=
  {| Out := Out logger; Hooks := Hooks logger;
     Logger_Formatter := Logger_Formatter logger;
     ReportCaller := ReportCaller logger;
     ConsoleLevel := ConsoleLevel logger; HookLevel := HookLevel logger;
     MaxAge := MaxAge logger; entryPool := pool;
     ExitFunc := ExitFunc logger |}.

Definition set_ExitFunc (logger : Logger) (f : option exitFunc) : Logger :=
  {| Out := Out logger; Hooks := Hooks logger;
     Logger_Formatter := Logger_Formatter logger;
     ReportCaller := ReportCaller logger;
     ConsoleLevel := ConsoleLevel logger; HookLevel := HookLevel logger;
     MaxAge := MaxAge logger; entryPool := entryPool logger;
     ExitFunc := f |}.

Definition set_Hooks (logger : Logger) (hooks : gmap Level (list Hook))
  : Logger :=
  {| Out := Out logger; Hooks := hooks;
     Logger_Formatter := Logger_Formatter logger;
     ReportCaller := ReportCaller logger;
     ConsoleLevel := ConsoleLevel logger; HookLevel := HookLevel logger;
     MaxAge := MaxAge logger; entryPool := entryPool logger;
     ExitFunc := ExitFunc logger |}.

(** [Logger.consoleLevel], [Logger.hookLevel]: atomic loads. *)
Definition Logger_consoleLevel (logger : Logger) : Level :=
  ConsoleLevel logger.
Definition Logger_hookLevel (logger : Logger) : Level := HookLevel logger.

(** [Logger.SetLevel(levels ...Level)] *)
Definition Logger_SetLevel (logger : Logger) (levels : list Level)
  : Logger :=
  let logger :=
    if (0 <? length levels)%nat then
      let logger := set_levels logger (nth 0 levels 0%N) (HookLevel logger) in
      set_levels logger (ConsoleLevel logger) (nth 0 levels 0%N)
    else logger in
  if (1 <? length levels)%nat then
    set_levels logger (ConsoleLevel logger) (nth 1 levels 0%N)
  else logger.

(** [Logger.GetLevel] *)
Definition Logger_GetLevel (logger : Logger) : Level :=
  Logger_consoleLevel logger.

(** [Logger.GetMaxAge] *)
Definition Logger_GetMaxAge (logger : Logger) : Z := MaxAge logger.

(** [Logger.IsLevelEnabled] *)
Definition Logger_IsLevelEnabled (logger : Logger) (level : Level) : bool :=
  Level_ge (Logger_consoleLevel logger) level
  || Level_ge (Logger_hookLevel logger) level.

(** [Logger.AddHook] *)
Definition Logger_AddHook (logger : Logger) (hook : Hook) : Logger :=
  set_Hooks logger (LevelHooks_Add (Hooks logger) hook).

(** Modelled from the spec: [NewEntry] (entry.go is not among the
    sources), an entry "freshly allocated if the pool is empty", owned by
    the logger and carrying its thresholds. *)
Definition NewEntry (logger : Logger) : Entry :=
  {| Logger_ReportCaller := ReportCaller logger;
     Data := ∅;
     Entry_Time :=
       {| Year := 1; Month := 1; Day := 1; Hour := 0; Minute := 0;
          Second := 0; Nanosecond := 0 |};
     Entry_Level := 0%N;
     Caller := None;
     Entry_Message := "";
     Buffer := None;
     Entry_ConsoleLevel := ConsoleLevel logger;
     Entry_HookLevel := HookLevel logger |}.

(** [Logger.newEntry]; the pool hands out its most recent entry. *)
Definition Logger_newEntry (logger : Logger) : Entry * Logger :=
  match entryPool logger with
  | entry :: pool =>
      ({| Logger_ReportCaller := Logger_ReportCaller entry;
          Data := Data entry;
          Entry_Time := Entry_Time entry;
          Entry_Level := Entry_Level entry;
          Caller := Caller entry;
          Entry_Message := Entry_Message entry;
          Buffer := Buffer entry;
          Entry_ConsoleLevel := ConsoleLevel logger;
          Entry_HookLevel := HookLevel logger |},
       set_entryPool logger pool)
  | [] => (NewEntry logger, logger)
  end.

(** [Logger.releaseEntry] *)
Definition Logger_releaseEntry (logger : Logger) (entry : Entry) : Logger :=
  let entry :=
    {| Logger_ReportCaller := Logger_ReportCaller entry;
       Data := ∅;
       Entry_Time := Entry_Time entry;
       Entry_Level := Entry_Level entry;
       Caller := Caller entry;
       Entry_Message := Entry_Message entry;
       Buffer := Buffer entry;
       Entry_ConsoleLevel := Entry_ConsoleLevel entry;
       Entry_HookLevel := Entry_HookLevel entry |} in
  set_entryPool logger (entry :: entryPool logger).

(** Modelled from the spec: the terminal methods [Entry.Log],
    [Entry.Logf] and [Entry.Logln] (entry.go is not among the sources):
    "(a) rejects the call as a no-op if the combined logger threshold
    does not admit the level"; "(c) writes the formatted record to the
    logger's primary output"; "(d) invokes every hook registered for that
    level"; "the two dispatches are independent"; and the method returns. *)
Definition Entry_Log (logger : Logger) (entry : Entry) (level : Level)
  (msg : Message) : Go unit :=
  if Logger_IsLevelEnabled logger level then
    _ ← (if Level_ge (Logger_consoleLevel logger) level
         then trace (EvConsole level msg) else mret tt);
    if Level_ge (Logger_hookLevel logger) level
    then trace (EvFireHooks level msg) else mret tt
  else mret tt.

(** Modelled from the spec: [runHandlers] (alt_exit.go is not among the
    sources), "runs process-exit-registered cleanup handlers". *)
Definition runHandlers : Go unit := trace EvRunHandlers.

(** Calling a [func(int)] stored in [ExitFunc]: [os.Exit] ends the
    process, another function returns to its caller. *)
Definition call_exitFunc (f : exitFunc) (code : Z) : Go unit := fun w =>
  match f with
  | os_Exit => (Exited code, emit (EvExitFunc f code) w)
  | user_exit _ => (Returned tt, emit (EvExitFunc f code) w)
  end.

(** [Logger.Exit] *)
Definition Logger_Exit (logger : Logger) (code : Z) : Go Logger :=
  _ ← runHandlers;
  let logger :=
    match ExitFunc logger with
    | None => set_ExitFunc logger (Some os_Exit)
    | Some _ => logger
    end in
  _ ← call_exitFunc (default os_Exit (ExitFunc logger)) code;
  mret logger.

(** [LogFunction]: a function value, known by a tag and by the
    arguments it returns. *)
Record LogFunction := {
  LogFunction_id : nat;
  LogFunction_result : list string
}.

Definition call_LogFunction (fn : LogFunction) : Go (list string) :=
  fun w => (Returned (LogFunction_result fn), emit (EvCallFn (LogFunction_id fn)) w).

(** [Logger.Log].  The level-named methods below repeat this body with
    the level filled in (the source keeps the call to [Log] as a comment
    above each copy). *)
Definition Logger_Log (logger : Logger) (level : Level) (args : list string)
  : Go Logger :=
  if Logger_IsLevelEnabled logger level then
    let '(entry, logger) := Logger_newEntry logger in
    _ ← Entry_Log logger entry level (Sprint args);
    mret (Logger_releaseEntry logger entry)
  else mret logger.

(** [Logger.Logf] *)
Definition Logger_Logf (logger : Logger) (level : Level) (format : string)
  (args : list string) : Go Logger :=
  if Logger_IsLevelEnabled logger level then
    let '(entry, logger) := Logger_newEntry logger in
    _ ← Entry_Log logger entry level (Sprintf format args);
    mret (Logger_releaseEntry logger entry)
  else mret logger.

(** [Logger.Logln] *)
Definition Logger_Logln (logger : Logger) (level : Level)
  (args : list string) : Go Logger :=
  if Logger_IsLevelEnabled logger level then
    let '(entry, logger) := Logger_newEntry logger in
    _ ← Entry_Log logger entry level (Sprintln args);
    mret (Logger_releaseEntry logger entry)
  else mret logger.

(** [Logger.LogFn]: the function is called only past the check. *)
Definition Logger_LogFn (logger : Logger) (level : Level) (fn : LogFunction)
  : Go Logger :=
  if Logger_IsLevelEnabled logger level then
    let '(entry, logger) := Logger_newEntry logger in
    args ← call_LogFunction fn;
    _ ← Entry_Log logger entry level (Sprint args);
    mret (Logger_releaseEntry logger entry)
  else mret logger.

(** [Logger.Fatal], [Fatalf], [Fatalln], [FatalFn] *)
Definition Logger_Fatal (logger : Logger) (args : list string) : Go Logger :=
  logger ← Logger_Log logger FatalLevel args;
  Logger_Exit logger 1.

Definition Logger_Fatalf (logger : Logger) (format : string)
  (args : list string) : Go Logger :=
  logger ← Logger_Logf logger FatalLevel format args;
  Logger_Exit logger 1.

Definition Logger_Fatalln (logger : Logger) (args : list string)
  : Go Logger :=
  logger ← Logger_Logln logger FatalLevel args;
  Logger_Exit logger 1.

Definition Logger_FatalFn (logger : Logger) (fn : LogFunction) : Go Logger :=
  logger ← Logger_LogFn logger FatalLevel fn;
  Logger_Exit logger 1.

(** [Logger.Panic], [Panicf], [Panicln], [PanicFn] *)
Definition Logger_Panic (logger : Logger) (args : list string) : Go Logger :=
  Logger_Log logger PanicLevel args.

Definition Logger_Panicf (logger : Logger) (format : string)
  (args : list string) : Go Logger :=
  Logger_Logf logger PanicLevel format args.

Definition Logger_Panicln (logger : Logger) (args : list string)
  : Go Logger :=
  Logger_Logln logger PanicLevel args.

Definition Logger_PanicFn (logger : Logger) (fn : LogFunction) : Go Logger :=
  Logger_LogFn logger PanicLevel fn.

(** ** Wiring the rotating files *)

(** The pattern and options that a [createFileLogger] passes to
    [rotatelogs.New], as the rotating writer they describe.  Whether the
    writer comes into being is [rotatelogs_New_error]'s to say; see
    [rotatelogs_New_result]. *)
Definition rotatelogs_New (p linkName : string) (maxAge rotationTime : Z)
  : RotateLogs :=
  {| pattern := p; WithLinkName := linkName; WithMaxAge := maxAge;
     WithRotationTime := rotationTime |}.

(** [createFileLogger] of package [lfs]: the arguments of its call. *)
Definition lfs_createFileLogger (level logPath : string) : RotateLogs :=
  let prefix := if (0 <? String.length level)%nat then "." +:+ level else "" in
  rotatelogs_New (logPath +:+ prefix +:+ ".%Y%m%d%H%M.log")
    (logPath +:+ ".log") (time_Hour * 24 * 7) time_Hour.

(** [createFileLogger] of package [logrus]: the arguments of its call;
    [GetMaxAge()] reads the package's logger. *)
Definition createFileLogger (std : Logger) (level logPath : string)
  : RotateLogs :=
  let prefix := if (0 <? String.length level)%nat then "." +:+ level else "" in
  rotatelogs_New (logPath +:+ prefix +:+ ".%Y%m%d%H%M.log")
    (logPath +:+ prefix +:+ ".log") (Logger_GetMaxAge std) time_Hour.

(** [io.MultiWriter(writers...)] *)
Definition io_MultiWriter (ws : list Writer) : Writer := multiWriter ws.

Context `{Rotation}.

(** What a [createFileLogger] returns, a [*RotateLogs] and an error:
    the writer and nil, or a nil pointer and the error.  Stored in an
    [io.Writer] the nil pointer is a nil writer. *)
Definition rotatelogs_New_result (rl : RotateLogs) : Writer * option error :=
  match rotatelogs_New_error rl with
  | Some err => (nil_Writer, Some err)
  | None => (RotateLogsWriter rl, None)
  end.

(** [Logger.Errorf], one of the level-named methods: the body of [Logf]
    at [ErrorLevel]. *)
Definition Logger_Errorf (logger : Logger) (format : string)
  (args : list string) : Go Logger :=
  Logger_Logf logger ErrorLevel format args.

(** Modelled from the spec: the package-level functions [Errorf] and
    [AddHook] (exported.go is not among the sources), "convenience
    functions that simply forward to a package-wide default logger
    instance", here [std]. *)
Definition logrus_Errorf (std : Logger) (format : string)
  (args : list string) : Go Logger :=
  Logger_Errorf std format args.

Definition logrus_AddHook (std : Logger) (hook : Hook) : Logger :=
  Logger_AddHook std hook.

(** [errors.WithStack(err)] as an argument of [%+v]: the error's text
    (the stack that is printed after it is left out). *)
Definition errors_WithStack (err : error) : string := err.

(** [ConfigLocalFileSystemLogger] of package [lfs]: the hook it builds
    and the package's logger [std] with the hook added.  Each [err]
    replaces the one before, so the check sees the error of the last
    creation only; a writer that could not be created is a nil writer
    and goes into the map like the others. *)
Definition lfs_ConfigLocalFileSystemLogger (std : Logger)
  (logPath logFileName : string) : Go (LfsHook * Logger) :=
  let baseLogPath := path_Join logPath logFileName in
  let '(debugWriter, err) :=
    rotatelogs_New_result (lfs_createFileLogger "debug" baseLogPath) in
  let '(infoWriter, err) :=
    rotatelogs_New_result (lfs_createFileLogger "info" baseLogPath) in
  let '(warnWriter, err) :=
    rotatelogs_New_result (lfs_createFileLogger "warn" baseLogPath) in
  let '(errorWriter, err) :=
    rotatelogs_New_result (lfs_createFileLogger "error" baseLogPath) in
  let '(commonWriter, err) :=
    rotatelogs_New_result (lfs_createFileLogger "" baseLogPath) in
  let multiErrorWriter := io_MultiWriter [errorWriter; commonWriter] in
  std ← match err with
        | Some err =>
            logrus_Errorf std "config local file system logger error: %+v"
              [errors_WithStack err]
        | None => mret std
        end;
  lfHook ← NewLocalFileSystemHook
    (Output_WriterMap (Some (
       <[DebugLevel := io_MultiWriter [debugWriter; commonWriter]]> (
       <[InfoLevel := io_MultiWriter [infoWriter; commonWriter]]> (
       <[WarnLevel := io_MultiWriter [warnWriter; commonWriter]]> (
       <[ErrorLevel := multiErrorWriter]> (
       <[FatalLevel := multiErrorWriter]> (
       <[PanicLevel := multiErrorWriter]> ∅))))))))
    (Some (SimpleFormatter_ptr {| Colored := false |}));
  mret (lfHook, logrus_AddHook std (LfsHook_ptr lfHook)).

(** Modelled from the spec: [newLocalFileSystemHook], the constructor of
    the hook inside package [logrus] (neither it nor that hook's methods
    are among the sources), "a concrete Hook that owns, per level, either
    a direct writer or a file path"; taken to be the constructor of
    package [lfs], whose hook it returns. *)
Definition newLocalFileSystemHook (output : Output) (fm : option Formatter)
  : Go LfsHook :=
  NewLocalFileSystemHook output fm.

(** [ConfigLocalFileSystemLogger] of package [logrus], with the same
    treatment of [err] and of writers that could not be created. *)
Definition ConfigLocalFileSystemLogger (std : Logger)
  (logPath logFileName : string) : Go (LfsHook * Logger) :=
  let baseLogPath := path_Join logPath logFileName in
  let '(debugWriter, err) :=
    rotatelogs_New_result (createFileLogger std "debug" baseLogPath) in
  let '(infoWriter, err) :=
    rotatelogs_New_result (createFileLogger std "info" baseLogPath) in
  let '(warnWriter, err) :=
    rotatelogs_New_result (createFileLogger std "warn" baseLogPath) in
  let '(errorWriter, err) :=
    rotatelogs_New_result (createFileLogger std "error" baseLogPath) in
  let '(commonWriter, err) :=
    rotatelogs_New_result (createFileLogger std "" baseLogPath) in
  let multiErrorWriter := io_MultiWriter [errorWriter; commonWriter] in
  std ← match err with
        | Some err =>
            logrus_Errorf std "config local file system logger error: %+v"
              [errors_WithStack err]
        | None => mret std
        end;
  lfHook ← newLocalFileSystemHook
    (Output_WriterMap (Some (
       <[DebugLevel := io_MultiWriter [debugWriter; commonWriter]]> (
       <[InfoLevel := io_MultiWriter [infoWriter; commonWriter]]> (
       <[WarnLevel := io_MultiWriter [warnWriter; commonWriter]]> (
       <[ErrorLevel := multiErrorWriter]> (
       <[FatalLevel := multiErrorWriter]> (
       <[PanicLevel := multiErrorWriter]> ∅))))))))
    (Some (SimpleFormatter_ptr {| Colored := false |}));
  mret (lfHook, logrus_AddHook std (LfsHook_ptr lfHook)).

End Program.

(** ** The rest of logger.go *)

(** [MutexWrap]: whether the inner [sync.Mutex] is held, and the flag. *)
Record MutexWrap := {
  held : bool;
  disabled : bool
}.

(** How a call on the mutex ends in a sequential run: it returns, it
    waits for ever on a mutex that is held, or the runtime stops the
    program. *)
Inductive sync_result :=
| Done (mw : MutexWrap)
| Blocked
| Fatal_error (msg : string).

(** [MutexWrap.Lock] *)
Definition MutexWrap_Lock (mw : MutexWrap) : sync_result :=
  if negb (disabled mw) then
    if held mw then Blocked
    else Done {| held := true; disabled := disabled mw |}
  else Done mw.

(** [MutexWrap.Unlock] *)
Definition MutexWrap_Unlock (mw : MutexWrap) : sync_result :=
  if negb (disabled mw) then
    if held mw then Done {| held := false; disabled := disabled mw |}
    else Fatal_error "sync: unlock of unlocked mutex"
  else Done mw.

(** [MutexWrap.Disable] *)
Definition MutexWrap_Disable (mw : MutexWrap) : MutexWrap :=
  {| held := held mw; disabled := true |}.

(** [Logger.SetFormatter] *)
Definition Logger_SetFormatter (logger : Logger) (fm : option Formatter)
  : Logger :=
  {| Out := Out logger; Hooks := Hooks logger;
     Logger_Formatter := fm;
     ReportCaller := ReportCaller logger;
     ConsoleLevel := ConsoleLevel logger; HookLevel := HookLevel logger;
     MaxAge := MaxAge logger; entryPool := entryPool logger;
     ExitFunc := ExitFunc logger |}.

(** [Logger.SetOutput] *)
Definition Logger_SetOutput (logger : Logger) (output : Writer) : Logger :=
  {| Out := output; Hooks := Hooks logger;
     Logger_Formatter := Logger_Formatter logger;
     ReportCaller := ReportCaller logger;
     ConsoleLevel := ConsoleLevel logger; HookLevel := HookLevel logger;
     MaxAge := MaxAge logger; entryPool := entryPool logger;
     ExitFunc := ExitFunc logger |}.

(** [Logger.SetReportCaller] *)
Definition Logger_SetReportCaller (logger : Logger) (reportCaller : bool)
  : Logger :=
  {| Out := Out logger; Hooks := Hooks logger;
     Logger_Formatter := Logger_Formatter logger;
     ReportCaller := reportCaller;
     ConsoleLevel := ConsoleLevel logger; HookLevel := HookLevel logger;
     MaxAge := MaxAge logger; entryPool := entryPool logger;
     ExitFunc := ExitFunc logger |}.

(** [Logger.ReplaceHooks]: the old table and the logger with the new one. *)
Definition Logger_ReplaceHooks (logger : Logger)
  (hooks : gmap Level (list Hook)) : gmap Level (list Hook) * Logger :=
  let oldHooks := Hooks logger in
  (oldHooks, set_Hooks logger hooks).

(** [Logger.SetMaxAge] *)
Definition Logger_SetMaxAge (logger : Logger) (duration : Z) : Logger :=
  {| Out := Out logger; Hooks := Hooks logger;
     Logger_Formatter := Logger_Formatter logger;
     ReportCaller := ReportCaller logger;
     ConsoleLevel := ConsoleLevel logger; HookLevel := HookLevel logger;
     MaxAge := duration; entryPool := entryPool logger;
     ExitFunc := ExitFunc logger |}.

(** The level-named methods below [Fatal].  Each has the body of [Logf],
    [Log], [LogFn] or [Logln] with its level filled in. *)
Definition Logger_Tracef (logger : Logger) (format : string)
  (args : list string) : Go Logger :=
  Logger_Logf logger TraceLevel format args.
Definition Logger_Debugf (logger : Logger) (format : string)
  (args : list string) : Go Logger :=
  Logger_Logf logger DebugLevel format args.
Definition Logger_Infof (logger : Logger) (format : string)
  (args : list string) : Go Logger :=
  Logger_Logf logger InfoLevel format args.
Definition Logger_Warnf (logger : Logger) (format : string)
  (args : list string) : Go Logger :=
  Logger_Logf logger WarnLevel format args.
Definition Logger_Warningf (logger : Logger) (format : string)
  (args : list string) : Go Logger :=
  Logger_Logf logger WarnLevel format args.

Definition Logger_Trace (logger : Logger) (args : list string) : Go Logger :=
  Logger_Log logger TraceLevel args.
Definition Logger_Debug (logger : Logger) (args : list string) : Go Logger :=
  Logger_Log logger DebugLevel args.
Definition Logger_Info (logger : Logger) (args : list string) : Go Logger :=
  Logger_Log logger InfoLevel args.
Definition Logger_Warn (logger : Logger) (args : list string) : Go Logger :=
  Logger_Log logger WarnLevel args.
Definition Logger_Warning (logger : Logger) (args : list string)
  : Go Logger :=
  Logger_Log logger WarnLevel args.
Definition Logger_Error (logger : Logger) (args : list string) : Go Logger :=
  Logger_Log logger ErrorLevel args.

Definition Logger_TraceFn (logger : Logger) (fn : LogFunction) : Go Logger :=
  Logger_LogFn logger TraceLevel fn.
Definition Logger_DebugFn (logger : Logger) (fn : LogFunction) : Go Logger :=
  Logger_LogFn logger DebugLevel fn.
Definition Logger_InfoFn (logger : Logger) (fn : LogFunction) : Go Logger :=
  Logger_LogFn logger InfoLevel fn.
Definition Logger_WarnFn (logger : Logger) (fn : LogFunction) : Go Logger :=
  Logger_LogFn logger WarnLevel fn.
Definition Logger_WarningFn (logger : Logger) (fn : LogFunction)
  : Go Logger :=
  Logger_LogFn logger WarnLevel fn.
Definition Logger_ErrorFn (logger : Logger) (fn : LogFunction) : Go Logger :=
  Logger_LogFn logger ErrorLevel fn.

Definition Logger_Traceln (logger : Logger) (args : list string)
  : Go Logger :=
  Logger_Logln logger TraceLevel args.
Definition Logger_Debugln (logger : Logger) (args : list string)
  : Go Logger :=
  Logger_Logln logger DebugLevel args.
Definition Logger_Infoln (logger : Logger) (args : list string)
  : Go Logger :=
  Logger_Logln logger InfoLevel args.
Definition Logger_Warnln (logger : Logger) (args : list string)
  : Go Logger :=
  Logger_Logln logger WarnLevel args.
Definition Logger_Warningln (logger : Logger) (args : list string)
  : Go Logger :=
  Logger_Logln logger WarnLevel args.
Definition Logger_Errorln (logger : Logger) (args : list string)
  : Go Logger :=
  Logger_Logln logger ErrorLevel args.

(** ** Concrete surroundings and inputs, used by the examples *)

(** The level names of logrus. *)
Definition logrus_names (l : Level) : string :=
  if (l =? PanicLevel)%N then "panic"
  else if (l =? FatalLevel)%N then "fatal"
  else if (l =? ErrorLevel)%N then "error"
  else if (l =? WarnLevel)%N then "warning"
  else if (l =? InfoLevel)%N then "info"
  else if (l =? DebugLevel)%N then "debug"
  else if (l =? TraceLevel)%N then "trace"
  else "unknown".

(** Surroundings in which every write is complete, except that writes to
    the destinations listed in [broken] fail; every open succeeds. *)
Definition surroundings (broken : list string) : Env :=
  {| Level_String := logrus_names;
     TextFormatter_Format := fun _ entry => (Entry_Message entry, None);
     filepath_Base := fun p => p;
     filepath_Dir := fun _ => ".";
     path_Join := fun dir file => dir +:+ "/" +:+ file;
     Write_result := fun _ dest p =>
       if existsb (String.eqb dest) broken then (0%Z, Some "disk full")
       else (len p, None);
     OpenFile_result := fun _ _ => None |}.

(** Surroundings in which [rotatelogs.New] succeeds, except for the
    patterns listed in [invalid]. *)
Definition rotation (invalid : list string) : Rotation :=
  {| rotatelogs_New_error := fun rl =>
       if existsb (String.eqb (pattern rl)) invalid
       then Some "invalid pattern" else None |}.

Definition empty_world : World := {| events := []; buffers := ∅ |}.

Definition hello_entry (level : Level) (buffer : option nat) : Entry :=
  {| Logger_ReportCaller := true;
     Data := ∅;
     Entry_Time :=
       {| Year := 2024; Month := 3; Day := 9; Hour := 7; Minute := 5;
          Second := 1; Nanosecond := 42000000 |};
     Entry_Level := level;
     Caller := None;
     Entry_Message := "hello";
     Buffer := buffer;
     Entry_ConsoleLevel := DebugLevel;
     Entry_HookLevel := DebugLevel |}.

(** The hook a constructor call returns ([LfsHook_zero] if it panics). *)
Definition hook_of (r : Outcome LfsHook * World) : LfsHook :=
  match r.1 with
  | Returned hook => hook
  | _ => LfsHook_zero
  end.

(** [NewLocalFileSystemHook(w, &SimpleFormatter{Colored: true})] for a
    writer [w] that appends to app.log. *)
Definition colored_hook : LfsHook :=
  hook_of (NewLocalFileSystemHook (Output_Writer (NamedWriter "app.log"))
             (Some (SimpleFormatter_ptr {| Colored := true |})) empty_world).

(** [NewLocalFileSystemHook(w, &SimpleFormatter{})] for the same writer. *)
Definition writer_hook : LfsHook :=
  hook_of (NewLocalFileSystemHook (Output_Writer (NamedWriter "app.log"))
             (Some (SimpleFormatter_ptr {| Colored := false |})) empty_world).

(** [NewLocalFileSystemHook(WriterMap{DebugLevel: w}, nil)] followed by
    [SetDefaultPath("all.log")]. *)
Definition mixed_hook : LfsHook :=
  LfsHook_SetDefaultPath
    (hook_of (NewLocalFileSystemHook
                (Output_WriterMap
                   (Some {[DebugLevel := NamedWriter "debug.log"]}))
                None empty_world))
    "all.log".

(** [NewLocalFileSystemHook(PathMap{ErrorLevel: "error.log"},
    &SimpleFormatter{})]. *)
Definition path_hook : LfsHook :=
  hook_of (NewLocalFileSystemHook
             (Output_PathMap (Some {[ErrorLevel := "error.log"]}))
             (Some (SimpleFormatter_ptr {| Colored := false |})) empty_world).

(** The hook of [ConfigLocalFileSystemLogger("logs", "app")] of package
    [lfs], every rotating file created. *)
Definition configured_hook (env : Env) : LfsHook :=
  match (@lfs_ConfigLocalFileSystemLogger env (rotation []) New "logs" "app"
           empty_world).1
  with
  | Returned (hook, _) => hook
  | _ => LfsHook_zero
  end.

Definition error_file : string := "logs/app.error.%Y%m%d%H%M.log".
Definition common_file : string := "logs/app.%Y%m%d%H%M.log".

Definition hello_info : string :=
  "[2024-03-09 07:05:01.042] [    info] hello" +:+ LF.
Definition hello_error : string :=
  "[2024-03-09 07:05:01.042] [   error] hello" +:+ LF.

Definition sample_fn : LogFunction :=
  {| LogFunction_id := 0; LogFunction_result := ["hello"] |}.

(** A formatter that fails on every entry, and hooks that use it. *)
Definition failing_format (entry : Entry) : string * option error :=
  ("", Some "bad entry").

Definition failing_writer_hook : LfsHook :=
  hook_of (NewLocalFileSystemHook (Output_Writer (NamedWriter "app.log"))
             (Some (OtherFormatter failing_format)) empty_world).

Definition failing_path_hook : LfsHook :=
  hook_of (NewLocalFileSystemHook (Output_string "all.log")
             (Some (OtherFormatter failing_format)) empty_world).



(** A logger on which only Panic is enabled. *)
Definition quiet_logger : Logger := Logger_SetLevel New [PanicLevel].

(** ** Vocabulary of the statements *)

(** The world after further events. *)
Definition add_events (w : World) (es : list Event) : World :=
  {| events := (events w ++ es)%list; buffers := buffers w |}.

(** What an admitted entry leaves in the trace: the console record when
    the console threshold admits the level, the hook dispatch when the
    hook threshold does. *)
Definition logged (logger : Logger) (level : Level) (msg : Message)
  : list Event :=
  ((if Level_ge (Logger_consoleLevel logger) level
    then [EvConsole level msg] else []) ++
   (if Level_ge (Logger_hookLevel logger) level
    then [EvFireHooks level msg] else []))%list.

(** The events of [Logger.Exit]. *)
Definition is_exit_event (e : Event) : bool :=
  match e with
  | EvRunHandlers | EvExitFunc _ _ => true
  | _ => false
  end.

(** One admitted-or-not log call: it returns, the logger keeps its exit
    function, and the trace grows by the entry's events if the level is
    enabled and by nothing otherwise. *)
Definition log_call_returns (logger : Logger) (level : Level)
  (call : Go Logger) (es : list Event) : Prop :=
  forall w, exists logger',
    call w =
    (Returned logger',
     add_events w (if Logger_IsLevelEnabled logger level then es else []))
    /\ ExitFunc logger' = ExitFunc logger.

(** A call that ends in [Logger.Exit(1)]: after the entry's events (none
    when the level is not enabled) the exit handlers run and the exit
    function is called with 1, the default being [os.Exit]; with
    [os.Exit] the process ends with status 1. *)
Definition exits_with_1 (logger : Logger) (call : Go Logger)
  (es : list Event) : Prop :=
  forall w,
    let f := default os_Exit (ExitFunc logger) in
    (call w).2 =
    add_events w
      ((if Logger_IsLevelEnabled logger FatalLevel then es else []) ++
       [EvRunHandlers; EvExitFunc f 1])
    /\ match f with
       | os_Exit => (call w).1 = Exited 1
       | user_exit _ => exists logger', (call w).1 = Returned logger'
       end.

(** A call that returns to its caller having added exactly the entry's
    events (none when the level is not enabled), none of which belongs to
    [Logger.Exit]. *)
Definition returns_without_exit (logger : Logger) (call : Go Logger)
  (es : list Event) : Prop :=
  forall w, exists logger' added,
    call w = (Returned logger', add_events w added)
    /\ added = (if Logger_IsLevelEnabled logger PanicLevel then es else [])
    /\ Forall (fun e => is_exit_event e = false) added.

(** [n] successive calls of [Format] on the same entry: the bytes each
    call returns, and the world at the end. *)
Fixpoint Format_repeatedly `{Env} (n : nat) (f : SimpleFormatter)
  (entry : Entry) (w : World) : list (Outcome (string * option error)) * World :=
  match n with
  | O => ([], w)
  | S n' =>
      let '(r, w') := SimpleFormatter_Format f entry w in
      let '(rs, w'') := Format_repeatedly n' f entry w' in
      (r :: rs, w'')
  end.

(** The error of one [Write] as the fan-out sees it: the writer's own
    error, or a short write. *)
Definition write_error (r : Z * option error) (p : string) : option error :=
  match r.2 with
  | Some e => Some e
  | None => if (r.1 =? len p)%Z then None else Some ErrShortWrite
  end.

(** Fan-out to two destinations, as the code performs it: the bytes go
    to the first; only if that write is complete do they go to the
    second; the first error is the result. *)
Definition fanout2 `{Env} (first second p : string) (w : World)
  : option error * World :=
  let r1 := Write_result (events w) first p in
  let w1 := add_events w [EvWrite first p r1.1 r1.2] in
  match write_error r1 p with
  | Some e => (Some e, w1)
  | None =>
      let r2 := Write_result (events w1) second p in
      (write_error r2 p, add_events w1 [EvWrite second p r2.1 r2.2])
  end.

(** Whether a write to [dest] occurs among the events. *)
Definition attempted (dest : string) (es : list Event) : bool :=
  existsb (fun e => match e with
                    | EvWrite d _ _ _ => String.eqb d dest
                    | _ => false
                    end) es.

(** The file name part of the per-level destination that the
    configuration gives a level. *)
Definition destination_name (level : Level) : option string :=
  if (level =? DebugLevel)%N then Some "debug"
  else if (level =? InfoLevel)%N then Some "info"
  else if (level =? WarnLevel)%N then Some "warn"
  else if (level =? ErrorLevel)%N || (level =? FatalLevel)%N
          || (level =? PanicLevel)%N then Some "error"
  else None.

(** The destination of a level within one mode: the one mapped to the
    level, else the mode's default if one was set. *)
Definition writer_for (hook : LfsHook) (level : Level)
  : option (option Writer) :=
  match map_index (writers hook) level with
  | Some writer => Some (Some writer)
  | None => if hasDefaultWriter hook then Some (defaultWriter hook) else None
  end.

Definition path_for (hook : LfsHook) (level : Level) : option string :=
  match map_index (paths hook) level with
  | Some path => Some path
  | None => if hasDefaultPath hook then Some (defaultPath hook) else None
  end.

(** Whether the byte [c] occurs in [s]. *)
Fixpoint has_byte (c : ascii) (s : string) : bool :=
  match s with
  | "" => false
  | String a s' => if ascii_dec c a then true else has_byte c s'
  end.

(** The colour sequence of a level: blue for Trace and Debug, green for
    Info, magenta for Warn, red for Error, Fatal and Panic, none for any
    other value. *)
Definition level_colour (level : Level) : string :=
  if (level <=? ErrorLevel)%N then ESC +:+ "[31;1m"
  else if (level =? WarnLevel)%N then ESC +:+ "[35;1m"
  else if (level =? InfoLevel)%N then ESC +:+ "[32;1m"
  else if (level <=? TraceLevel)%N then ESC +:+ "[34;1m"
  else "".

(** Events of the writer side and of the file side of the hook. *)
Definition is_writer_event (e : Event) : bool :=
  match e with
  | EvWrite _ _ _ _ | EvLogPrintln _ => true
  | _ => false
  end.

Definition is_file_event (e : Event) : bool :=
  match e with
  | EvMkdirAll _ | EvOpenFile _ _ | EvFileWrite _ _ | EvClose _
  | EvLogPrintln _ => true
  | _ => false
  end.

(** Calls on a [MutexWrap], and a run of them from left to right. *)
Inductive MutexOp := OpLock | OpUnlock | OpDisable.

Fixpoint MutexWrap_run (ops : list MutexOp) (mw : MutexWrap) : sync_result :=
  match ops with
  | [] => Done mw
  | op :: ops' =>
      match op with
      | OpLock =>
          match MutexWrap_Lock mw with
          | Done mw' => MutexWrap_run ops' mw'
          | r => r
          end
      | OpUnlock =>
          match MutexWrap_Unlock mw with
          | Done mw' => MutexWrap_run ops' mw'
          | r => r
          end
      | OpDisable => MutexWrap_run ops' (MutexWrap_Disable mw)
      end
  end.

(** The level-named methods below [Fatal], each with its level. *)
Definition level_methods (logger : Logger) (args : list string)
  (format : string) (fn : LogFunction) : list (Level * Go Logger) :=
  [ (TraceLevel, Logger_Tracef logger format args);
    (DebugLevel, Logger_Debugf logger format args);
    (InfoLevel, Logger_Infof logger format args);
    (WarnLevel, Logger_Warnf logger format args);
    (WarnLevel, Logger_Warningf logger format args);
    (ErrorLevel, Logger_Errorf logger format args);
    (TraceLevel, Logger_Trace logger args);
    (DebugLevel, Logger_Debug logger args);
    (InfoLevel, Logger_Info logger args);
    (WarnLevel, Logger_Warn logger args);
    (WarnLevel, Logger_Warning logger args);
    (ErrorLevel, Logger_Error logger args);
    (TraceLevel, Logger_TraceFn logger fn);
    (DebugLevel, Logger_DebugFn logger fn);
    (InfoLevel, Logger_InfoFn logger fn);
    (WarnLevel, Logger_WarnFn logger fn);
    (WarnLevel, Logger_WarningFn logger fn);
    (ErrorLevel, Logger_ErrorFn logger fn);
    (TraceLevel, Logger_Traceln logger args);
    (DebugLevel, Logger_Debugln logger args);
    (InfoLevel, Logger_Infoln logger args);
    (WarnLevel, Logger_Warnln logger args);
    (WarnLevel, Logger_Warningln logger args);
    (ErrorLevel, Logger_Errorln logger args);
    (PanicLevel, Logger_Panic logger args);
    (PanicLevel, Logger_Panicf logger format args);
    (PanicLevel, Logger_Panicln logger args);
    (PanicLevel, Logger_PanicFn logger fn) ].

(** * Properties *)

Section Properties.
Context `{Env}.
Context `{Rotation}.

(** ** Thresholds *)

(** C1.  [IsLevelEnabled(L)] is true exactly when the console threshold
    is numerically at least [L] or the hook threshold is numerically at
    least [L]. *)
Theorem IsLevelEnabled_either_threshold (logger : Logger) (L : Level) :
  Logger_IsLevelEnabled logger L = true <->
  (ConsoleLevel logger >= L)%N \/ (HookLevel logger >= L)%N.
Proof.
  unfold Logger_IsLevelEnabled, Logger_consoleLevel, Logger_hookLevel,
    Level_ge.
  rewrite orb_true_iff, !N.leb_le. lia.
Qed.

(** C8.  [SetLevel(c)] sets both thresholds to [c]; [SetLevel(c, h)] sets
    the console threshold to [c] and the hook threshold to [h];
    [SetLevel()] leaves both thresholds (and the whole logger) as they
    were. *)
Theorem SetLevel_one_two_none (logger : Logger) (c h : Level) :
  (ConsoleLevel (Logger_SetLevel logger [c]) = c /\
   HookLevel (Logger_SetLevel logger [c]) = c) /\
  (ConsoleLevel (Logger_SetLevel logger [c; h]) = c /\
   HookLevel (Logger_SetLevel logger [c; h]) = h) /\
  Logger_SetLevel logger [] = logger.
Proof.
  destruct logger; repeat split; reflexivity.
Qed.

(** ** The constructor and the declared levels *)

(** C7.  The constructor accepts a string (the default path), a writer
    (the default writer), a level-to-path map or a level-to-writer map,
    and returns the hook set up for it; for an argument of any other type
    it panics, at construction, with the type in the message. *)
Theorem NewLocalFileSystemHook_accepts_four_types
  (output : Output) (fm : option Formatter) (w : World) :
  match output with
  | Output_string s =>
      exists hook, NewLocalFileSystemHook output fm w = (Returned hook, w) /\
        hasDefaultPath hook = true /\ defaultPath hook = s
  | Output_Writer wr =>
      exists hook, NewLocalFileSystemHook output fm w = (Returned hook, w) /\
        hasDefaultWriter hook = true /\ defaultWriter hook = Some wr
  | Output_PathMap m =>
      exists hook, NewLocalFileSystemHook output fm w = (Returned hook, w) /\
        paths hook = m
  | Output_WriterMap m =>
      exists hook, NewLocalFileSystemHook output fm w = (Returned hook, w) /\
        writers hook = m
  | Output_other type_name =>
      NewLocalFileSystemHook output fm w =
      (Panicked ("unsupported level map type: " +:+ type_name), w)
  end.
Proof.
  destruct output; cbn; eauto.
Qed.

Lemma LevelHooks_Add_keeps (hook other : Hook) (ls : list Level) :
  forall (hooks : gmap Level (list Hook)) (level : Level),
    other ∈ default [] (hooks !! level) ->
    other ∈ default []
      (foldl (fun (hooks : gmap Level (list Hook)) (level : Level) =>
                <[level := (default [] (hooks !! level) ++ [hook])%list]> hooks)
             hooks ls !! level).
Proof.
  induction ls as [|l ls IH]; intros hooks level Hin; cbn; [done|].
  apply IH. destruct (decide (l = level)) as [->|Hne].
  - rewrite lookup_insert_eq. cbn. apply elem_of_app. by left.
  - by rewrite lookup_insert_ne.
Qed.

Lemma LevelHooks_Add_registers (hook : Hook) (ls : list Level) :
  forall (hooks : gmap Level (list Hook)) (level : Level),
    level ∈ ls ->
    hook ∈ default []
      (foldl (fun (hooks : gmap Level (list Hook)) (level : Level) =>
                <[level := (default [] (hooks !! level) ++ [hook])%list]> hooks)
             hooks ls !! level).
Proof.
  induction ls as [|l ls IH]; intros hooks level Hin; cbn.
  - by apply elem_of_nil in Hin.
  - apply elem_of_cons in Hin as [->|Hin].
    + apply LevelHooks_Add_keeps. rewrite lookup_insert_eq. cbn.
      apply elem_of_app. right. by apply list_elem_of_singleton.
    + by apply IH.
Qed.

Lemma Fire_nothing_mapped (hook : LfsHook) (entry : Entry) (w : World) :
  map_index (writers hook) (Entry_Level entry) = None ->
  map_index (paths hook) (Entry_Level entry) = None ->
  hasDefaultWriter hook = false ->
  hasDefaultPath hook = false ->
  LfsHook_Fire hook entry w = (Returned None, w).
Proof.
  intros Hw Hp Hdw Hdp. unfold LfsHook_Fire.
  rewrite Hdw, Hdp, !orb_false_r.
  destruct (non_nil (writers hook)).
  - unfold LfsHook_ioWrite. rewrite Hw, Hdw. reflexivity.
  - destruct (non_nil (paths hook)); [|reflexivity].
    unfold LfsHook_fileWrite. rewrite Hp, Hdp. reflexivity.
Qed.

(** C10.  [Levels()] is [AllLevels] for every hook, whatever its mapped
    levels are; so adding the hook to a logger puts it in the sequence of
    each of the seven levels, and an entry at a level the hook has no
    destination for is dropped inside [Fire]. *)
Theorem LfsHook_Levels_is_AllLevels (hook : LfsHook) (logger : Logger) :
  LfsHook_Levels hook = AllLevels /\
  (forall level : Level,
     level ∈ AllLevels ->
     LfsHook_ptr hook ∈
       default [] (Hooks (Logger_AddHook logger (LfsHook_ptr hook)) !! level)) /\
  (forall (entry : Entry) (w : World),
     map_index (writers hook) (Entry_Level entry) = None ->
     map_index (paths hook) (Entry_Level entry) = None ->
     hasDefaultWriter hook = false ->
     hasDefaultPath hook = false ->
     LfsHook_Fire hook entry w = (Returned None, w)).
Proof.
  split; [reflexivity|]. split.
  - intros level Hin. unfold Logger_AddHook, set_Hooks, Hooks.
    by apply LevelHooks_Add_registers.
  - intros entry w. apply Fire_nothing_mapped.
Qed.

(** ** Fatal and Panic *)

Lemma add_events_nil (w : World) : add_events w [] = w.
Proof. destruct w; unfold add_events; cbn. by rewrite app_nil_r. Qed.

Lemma add_events_app (w : World) (es es' : list Event) :
  add_events (add_events w es) es' = add_events w (es ++ es').
Proof. unfold add_events; cbn. by rewrite app_assoc. Qed.

Lemma trace_add (e : Event) (w : World) :
  trace e w = (Returned tt, add_events w [e]).
Proof. reflexivity. Qed.

Lemma logged_disabled (logger : Logger) (level : Level) (msg : Message) :
  Logger_IsLevelEnabled logger level = false -> logged logger level msg = [].
Proof.
  unfold Logger_IsLevelEnabled, logged. intros [-> ->]%orb_false_elim.
  reflexivity.
Qed.

Lemma logged_enabled (logger : Logger) (level : Level) (msg : Message) :
  Logger_IsLevelEnabled logger level = true -> logged logger level msg <> [].
Proof.
  unfold Logger_IsLevelEnabled, logged.
  intros [-> | ->]%orb_true_iff; [done|].
  by destruct (Level_ge (Logger_consoleLevel logger) level).
Qed.

Lemma logged_no_exit (logger : Logger) (level : Level) (msg : Message) :
  Forall (fun e => is_exit_event e = false) (logged logger level msg).
Proof.
  unfold logged.
  destruct (Level_ge (Logger_consoleLevel logger) level),
    (Level_ge (Logger_hookLevel logger) level); cbn; repeat constructor.
Qed.

Lemma Entry_Log_events (logger : Logger) (entry : Entry) (level : Level)
  (msg : Message) (w : World) :
  Entry_Log logger entry level msg w =
  (Returned tt, add_events w (logged logger level msg)).
Proof.
  unfold Entry_Log, logged, Logger_IsLevelEnabled.
  destruct (Level_ge (Logger_consoleLevel logger) level),
    (Level_ge (Logger_hookLevel logger) level); cbn;
    rewrite ?add_events_nil; try reflexivity.
  unfold mbind, Go_bind. rewrite !trace_add, add_events_app. reflexivity.
Qed.

Lemma newEntry_same_thresholds (logger : Logger) :
  Logger_consoleLevel (Logger_newEntry logger).2 = Logger_consoleLevel logger
  /\ Logger_hookLevel (Logger_newEntry logger).2 = Logger_hookLevel logger
  /\ ExitFunc (Logger_newEntry logger).2 = ExitFunc logger.
Proof. unfold Logger_newEntry. by destruct (entryPool logger). Qed.

Lemma logged_newEntry (logger : Logger) (level : Level) (msg : Message) :
  logged (Logger_newEntry logger).2 level msg = logged logger level msg.
Proof.
  unfold logged.
  by destruct (newEntry_same_thresholds logger) as (-> & -> & _).
Qed.

(** The four log methods share one shape: the check, an entry from the
    pool, the entry's terminal method, the release. *)
Ltac log_call logger level :=
  let w := fresh "w" in
  let E := fresh "E" in
  intros w;
  destruct (Logger_IsLevelEnabled logger level);
  [ destruct (Logger_newEntry logger) as [? ?logger1] eqn:E;
    eexists; unfold mbind, Go_bind, call_LogFunction;
    rewrite Entry_Log_events;
    match goal with
    | |- context [logged ?l _ _] =>
        replace l with (Logger_newEntry logger).2 by (by rewrite E)
    end;
    rewrite logged_newEntry;
    repeat change (emit ?e ?w) with (add_events w [e]);
    rewrite ?add_events_app; split; [reflexivity|];
    apply newEntry_same_thresholds
  | exists logger; by rewrite add_events_nil ].

Lemma Logger_Log_returns (logger : Logger) (level : Level)
  (args : list string) :
  log_call_returns logger level (Logger_Log logger level args)
    (logged logger level (Sprint args)).
Proof. unfold Logger_Log. log_call logger level. Qed.

Lemma Logger_Logf_returns (logger : Logger) (level : Level)
  (format : string) (args : list string) :
  log_call_returns logger level (Logger_Logf logger level format args)
    (logged logger level (Sprintf format args)).
Proof. unfold Logger_Logf. log_call logger level. Qed.

Lemma Logger_Logln_returns (logger : Logger) (level : Level)
  (args : list string) :
  log_call_returns logger level (Logger_Logln logger level args)
    (logged logger level (Sprintln args)).
Proof. unfold Logger_Logln. log_call logger level. Qed.

Lemma Logger_LogFn_returns (logger : Logger) (level : Level)
  (fn : LogFunction) :
  log_call_returns logger level (Logger_LogFn logger level fn)
    (EvCallFn (LogFunction_id fn)
     :: logged logger level (Sprint (LogFunction_result fn))).
Proof. unfold Logger_LogFn. log_call logger level. Qed.

Lemma Exit_after_log (logger : Logger) (call : Go Logger) (es : list Event) :
  log_call_returns logger FatalLevel call es ->
  exits_with_1 logger (logger' ← call; Logger_Exit logger' 1) es.
Proof.
  intros Hcall w. destruct (Hcall w) as (logger' & Hc & Hf).
  unfold mbind, Go_bind. rewrite Hc.
  unfold Logger_Exit, runHandlers, mbind, Go_bind.
  rewrite trace_add. cbn zeta.
  assert (default os_Exit
            (ExitFunc match ExitFunc logger' with
                      | Some _ => logger'
                      | None => set_ExitFunc logger' (Some os_Exit)
                      end) = default os_Exit (ExitFunc logger)) as ->.
  { rewrite <- Hf. destruct (ExitFunc logger') eqn:E'; cbn; by rewrite ?E'. }
  unfold call_exitFunc.
  destruct (default os_Exit (ExitFunc logger)) eqn:Ef; cbn;
    change (emit ?e ?w) with (add_events w [e]);
    rewrite !add_events_app, <- ?app_assoc; cbn; eauto.
Qed.

(** C2.  [Fatal], [Fatalf], [Fatalln] and [FatalFn] all end in
    [Exit(1)]: the exit handlers run, then the configured exit function
    is called with 1, [os.Exit] standing in when none is configured.
    This happens whether or not [IsLevelEnabled(FatalLevel)] holds; when
    it does not, no entry is logged and the exit events are the only
    ones. *)
Theorem Fatal_family_always_exits (logger : Logger) (args : list string)
  (format : string) (fn : LogFunction) :
  exits_with_1 logger (Logger_Fatal logger args)
    (logged logger FatalLevel (Sprint args)) /\
  exits_with_1 logger (Logger_Fatalf logger format args)
    (logged logger FatalLevel (Sprintf format args)) /\
  exits_with_1 logger (Logger_Fatalln logger args)
    (logged logger FatalLevel (Sprintln args)) /\
  exits_with_1 logger (Logger_FatalFn logger fn)
    (EvCallFn (LogFunction_id fn)
     :: logged logger FatalLevel (Sprint (LogFunction_result fn))).
Proof.
  refine (conj _ (conj _ (conj _ _))); apply Exit_after_log;
    [ apply Logger_Log_returns | apply Logger_Logf_returns
    | apply Logger_Logln_returns | apply Logger_LogFn_returns ].
Qed.

Lemma returns_after_log (logger : Logger) (call : Go Logger)
  (es : list Event) :
  Forall (fun e => is_exit_event e = false) es ->
  log_call_returns logger PanicLevel call es ->
  returns_without_exit logger call es.
Proof.
  intros Hes Hcall w. destruct (Hcall w) as (logger' & Hc & _).
  exists logger'. eexists. split; [exact Hc|]. split; [reflexivity|].
  destruct (Logger_IsLevelEnabled logger PanicLevel); [exact Hes|constructor].
Qed.

(** C3.  [Panic], [Panicf], [Panicln] and [PanicFn] log the entry when
    the level is enabled and return to the caller: the outcome is a
    normal return, not a panic and not an exit, and neither the exit
    handlers nor the exit function appear among the events added. *)
Theorem Panic_family_returns_normally (logger : Logger) (args : list string)
  (format : string) (fn : LogFunction) :
  returns_without_exit logger (Logger_Panic logger args)
    (logged logger PanicLevel (Sprint args)) /\
  returns_without_exit logger (Logger_Panicf logger format args)
    (logged logger PanicLevel (Sprintf format args)) /\
  returns_without_exit logger (Logger_Panicln logger args)
    (logged logger PanicLevel (Sprintln args)) /\
  returns_without_exit logger (Logger_PanicFn logger fn)
    (EvCallFn (LogFunction_id fn)
     :: logged logger PanicLevel (Sprint (LogFunction_result fn))) /\
  (Logger_IsLevelEnabled logger PanicLevel = true ->
   forall msg, logged logger PanicLevel msg <> []).
Proof.
  refine (conj _ (conj _ (conj _ (conj _ _))));
    [ apply returns_after_log; [apply logged_no_exit|]
    | apply returns_after_log; [apply logged_no_exit|]
    | apply returns_after_log; [apply logged_no_exit|]
    | apply returns_after_log;
      [constructor; [reflexivity | apply logged_no_exit]|]
    | intros; by apply logged_enabled ];
    [ apply Logger_Log_returns | apply Logger_Logf_returns
    | apply Logger_Logln_returns | apply Logger_LogFn_returns ].
Qed.

(** ** Formatting *)

Lemma append_assoc (s1 s2 s3 : string) :
  (s1 +:+ s2) +:+ s3 = s1 +:+ (s2 +:+ s3).
Proof.
  induction s1 as [|c s1 IH]; [reflexivity|].
  change (String c ((s1 +:+ s2) +:+ s3) = String c (s1 +:+ (s2 +:+ s3))).
  by f_equal.
Qed.

Lemma SimpleFormatter_writes_appends (f : SimpleFormatter) (entry : Entry)
  (b : string) :
  SimpleFormatter_writes f entry b = b +:+ SimpleFormatter_writes f entry "".
Proof.
  unfold SimpleFormatter_writes, WriteString.
  destruct (Colored f);
    repeat match goal with
    | |- context [if ?c then _ else _] => destruct c
    | |- context [match ?c with Some _ => _ | None => _ end] => destruct c
    end;
    rewrite !append_assoc; reflexivity.
Qed.

(** C9, as amended.  For an entry without a buffer, each call of
    [Format] returns the same bytes and leaves the world as it was, so
    any number of calls gives that many equal results.  For an entry
    with a buffer, a call appends the record to the buffer and returns
    the whole contents. *)
Theorem SimpleFormatter_Format_repeated (f : SimpleFormatter) (entry : Entry) :
  let record := SimpleFormatter_writes f entry "" in
  (Buffer entry = None ->
   forall (n : nat) (w : World),
     Format_repeatedly n f entry w =
     (replicate n (Returned (record, None)), w)) /\
  (forall a : nat, Buffer entry = Some a ->
   forall w : World,
     SimpleFormatter_Format f entry w =
     (Returned (Buffer_contents w a +:+ record, None),
      Buffer_store a (Buffer_contents w a +:+ record) w)).
Proof.
  cbn zeta. split.
  - intros Hnil n. induction n as [|n IH]; intros w; cbn; [reflexivity|].
    unfold SimpleFormatter_Format at 1. rewrite Hnil, IH. reflexivity.
  - intros a Hbuf w. unfold SimpleFormatter_Format. rewrite Hbuf.
    by rewrite SimpleFormatter_writes_appends.
Qed.

(** ** The hook's formatter *)

Lemma SetFormatter_nil (hook : LfsHook) :
  formatter (LfsHook_SetFormatter hook None) = Some defaultFormatter.
Proof. reflexivity. Qed.

Lemma SetFormatter_TextFormatter (hook : LfsHook) (f : TextFormatter) :
  exists f', formatter (LfsHook_SetFormatter hook (Some (TextFormatter_ptr f)))
             = Some (TextFormatter_ptr f') /\ DisableColors f' = true.
Proof. eexists. split; reflexivity. Qed.

Lemma SetFormatter_SimpleFormatter (hook : LfsHook) (f : SimpleFormatter) :
  formatter (LfsHook_SetFormatter hook (Some (SimpleFormatter_ptr f)))
  = Some (SimpleFormatter_ptr f).
Proof. reflexivity. Qed.

(** ** Fan-out *)

Lemma MultiWriter_two_leaves (a b : RotateLogs) (p : string) (w : World) :
  (r ← Writer_Write (io_MultiWriter [RotateLogsWriter a; RotateLogsWriter b]) p;
   mret r.2) w =
  let '(err, w') := fanout2 (pattern a) (pattern b) p w in (Returned err, w').
Proof.
  unfold io_MultiWriter, fanout2, write_error. cbn [Writer_Write].
  unfold mbind, Go_bind, leaf_Write, dest_of_RotateLogs.
  change (emit ?e ?w) with (add_events w [e]).
  destruct (Write_result (events w) (pattern a) p) as [n1 [e1|]]; cbn;
    [reflexivity|].
  destruct (n1 =? len p)%Z; [|reflexivity].
  destruct (Write_result _ (pattern b) p) as [n2 [e2|]]; cbn; [reflexivity|].
  by destruct (n2 =? len p)%Z.
Qed.

Lemma Fire_fanout (hook : LfsHook) (m : gmap Level Writer) (entry : Entry)
  (a b : RotateLogs) (first second : string) (f : SimpleFormatter)
  (w : World) :
  writers hook = Some m ->
  m !! Entry_Level entry =
    Some (io_MultiWriter [RotateLogsWriter a; RotateLogsWriter b]) ->
  formatter hook = Some (SimpleFormatter_ptr f) ->
  pattern a = first ->
  pattern b = second ->
  exists msg w1,
    SimpleFormatter_Format f entry w = (Returned (msg, None), w1) /\
    LfsHook_Fire hook entry w =
    let '(err, w') := fanout2 first second msg w1 in
    (Returned err, w').
Proof.
  intros Hw Hm Hf <- <-.
  assert (exists msg w1,
             SimpleFormatter_Format f entry w = (Returned (msg, None), w1))
    as (msg & w1 & Hfmt).
  { unfold SimpleFormatter_Format. destruct (Buffer entry); eauto. }
  exists msg, w1. split; [exact Hfmt|].
  unfold LfsHook_Fire, LfsHook_ioWrite, LfsHook_Format, map_index.
  rewrite Hw, Hf. cbn [non_nil orb mbind option_bind]. rewrite Hm.
  cbn [Formatter_Format]. unfold mbind at 1, Go_bind at 1.
  rewrite Hfmt. cbn [fst snd].
  apply MultiWriter_two_leaves.
Qed.

(** What [ConfigLocalFileSystemLogger] of package [lfs] always does: it
    returns a hook with the simple formatter, no default writer, and the
    six-level map of fan-outs, each over the two writers that the
    creations gave, nil or not.  The world changes only if the last
    creation, that of the common file, failed. *)
Lemma lfs_ConfigLocalFileSystemLogger_returns (std : Logger)
  (logPath logFileName : string) (w0 : World) :
  let base := path_Join logPath logFileName in
  let writer (level : string) :=
    (rotatelogs_New_result (lfs_createFileLogger level base)).1 in
  exists hook std' w0',
    lfs_ConfigLocalFileSystemLogger std logPath logFileName w0 =
    (Returned (hook, std'), w0') /\
    (rotatelogs_New_error (lfs_createFileLogger "" base) = None -> w0' = w0) /\
    formatter hook = Some (SimpleFormatter_ptr {| Colored := false |}) /\
    hasDefaultWriter hook = false /\
    writers hook =
    Some (<[DebugLevel := io_MultiWriter [writer "debug"; writer ""]]> (
          <[InfoLevel := io_MultiWriter [writer "info"; writer ""]]> (
          <[WarnLevel := io_MultiWriter [writer "warn"; writer ""]]> (
          <[ErrorLevel := io_MultiWriter [writer "error"; writer ""]]> (
          <[FatalLevel := io_MultiWriter [writer "error"; writer ""]]> (
          <[PanicLevel := io_MultiWriter [writer "error"; writer ""]]> ∅)))))).
Proof.
  cbn zeta. unfold lfs_ConfigLocalFileSystemLogger.
  destruct (rotatelogs_New_result
              (lfs_createFileLogger "debug" (path_Join logPath logFileName)))
    as [debugWriter e1].
  destruct (rotatelogs_New_result
              (lfs_createFileLogger "info" (path_Join logPath logFileName)))
    as [infoWriter e2].
  destruct (rotatelogs_New_result
              (lfs_createFileLogger "warn" (path_Join logPath logFileName)))
    as [warnWriter e3].
  destruct (rotatelogs_New_result
              (lfs_createFileLogger "error" (path_Join logPath logFileName)))
    as [errorWriter e4].
  unfold rotatelogs_New_result.
  destruct (rotatelogs_New_error
              (lfs_createFileLogger "" (path_Join logPath logFileName)))
    as [err|].
  - cbn [fst snd].
    destruct (Logger_Logf_returns std ErrorLevel
                "config local file system logger error: %+v"
                [errors_WithStack err] w0) as (std1 & Hlog & _).
    unfold logrus_Errorf, Logger_Errorf. unfold mbind at 1, Go_bind at 1.
    rewrite Hlog.
    eexists _, _, _. split; [reflexivity|]. split; [done|].
    repeat split.
  - cbn [fst snd]. eexists _, _, _. split; [reflexivity|].
    repeat split.
Qed.

(** C5, as amended.  Once the rotating file of the entry's level and the
    common one have been created, the hook that
    [ConfigLocalFileSystemLogger] of package [lfs] builds sends the bytes
    of an entry at Debug, Info or Warn to that level's file and then to
    the common one, and those of an entry at Error, Fatal or Panic to
    the error file and then to the common one: the same bytes, in this
    order.  [Fire] returns the first error, and the common file is
    written only when the write to the first file was complete. *)
Theorem ConfigLocalFileSystemLogger_fans_out (std : Logger)
  (logPath logFileName name : string) (entry : Entry) (w0 w : World) :
  destination_name (Entry_Level entry) = Some name ->
  let base := path_Join logPath logFileName in
  let first := base +:+ "." +:+ name +:+ ".%Y%m%d%H%M.log" in
  let common := base +:+ ".%Y%m%d%H%M.log" in
  rotatelogs_New_error (lfs_createFileLogger name base) = None ->
  rotatelogs_New_error (lfs_createFileLogger "" base) = None ->
  exists hook std',
    lfs_ConfigLocalFileSystemLogger std logPath logFileName w0 =
    (Returned (hook, std'), w0) /\
    exists msg w1,
      SimpleFormatter_Format {| Colored := false |} entry w =
      (Returned (msg, None), w1) /\
      LfsHook_Fire hook entry w =
      let '(err, w') := fanout2 first common msg w1 in (Returned err, w').
Proof.
  intros Hname. cbn zeta. intros Hfirst Hcommon.
  pose proof (lfs_ConfigLocalFileSystemLogger_returns std logPath
                logFileName w0) as Hshape.
  cbn zeta beta in Hshape.
  destruct Hshape
    as (hook & std' & w0' & Hconfig & Hworld & Hfm & Hdw & Hwriters).
  rewrite (Hworld Hcommon) in Hconfig.
  exists hook, std'. split; [exact Hconfig|].
  unfold rotatelogs_New_result in Hwriters. rewrite Hcommon in Hwriters.
  unfold destination_name in Hname.
  repeat match type of Hname with
         | context [(?l =? ?c)%N] =>
             destruct (N.eqb_spec l c) as [Hl|_]; cbn in Hname
         end;
    try discriminate; injection Hname as <-;
    rewrite Hfirst in Hwriters; cbn [fst] in Hwriters;
    (eapply Fire_fanout;
     [ exact Hwriters | rewrite Hl; by simplify_map_eq | exact Hfm
     | reflexivity.. ]).
Qed.

(** ** Destinations *)

(** C6, as amended.  [Fire] first selects a mode: writers, if a writer
    map or a default writer is set; else paths, if a path map or a
    default path is set.  Within the mode, a level with no destination of
    its own and no default of that mode is a silent no-op returning nil;
    otherwise the formatted bytes go to the level's destination if
    mapped, else to the mode's default (in path mode, once the file has
    been opened).  A level with nothing mapped and no default at all is
    a no-op in every case. *)
Theorem Fire_delivers_within_its_mode (hook : LfsHook) (entry : Entry)
  (w : World) :
  let level := Entry_Level entry in
  (map_index (writers hook) level = None ->
   map_index (paths hook) level = None ->
   hasDefaultWriter hook = false ->
   hasDefaultPath hook = false ->
   LfsHook_Fire hook entry w = (Returned None, w)) /\
  (non_nil (writers hook) || hasDefaultWriter hook = true ->
   match writer_for hook level with
   | None => LfsHook_Fire hook entry w = (Returned None, w)
   | Some writer =>
       forall msg w1,
         LfsHook_Format hook entry w = (Returned (msg, None), w1) ->
         LfsHook_Fire hook entry w =
         match writer with
         | Some writer => (r ← Writer_Write writer msg; mret r.2) w1
         | None => (Panicked nil_dereference, w1)
         end
   end) /\
  (non_nil (writers hook) || hasDefaultWriter hook = false ->
   non_nil (paths hook) || hasDefaultPath hook = true ->
   match path_for hook level with
   | None => LfsHook_Fire hook entry w = (Returned None, w)
   | Some path =>
       let dir := filepath_Dir path in
       OpenFile_result (events (add_events w [EvMkdirAll dir])) path = None ->
       forall msg w1,
         LfsHook_Format hook entry
           (add_events w [EvMkdirAll dir; EvOpenFile path None])
         = (Returned (msg, None), w1) ->
         LfsHook_Fire hook entry w =
         (Returned None, add_events w1 [EvFileWrite path msg; EvClose path])
   end).
Proof.
  cbn zeta. split; [apply Fire_nothing_mapped|]. split.
  - intros Hmode. unfold LfsHook_Fire. rewrite Hmode.
    unfold LfsHook_ioWrite, writer_for.
    destruct (map_index (writers hook) (Entry_Level entry)) as [writer|].
    + intros msg w1 Hfmt. unfold mbind at 1, Go_bind at 1.
      rewrite Hfmt. reflexivity.
    + destruct (hasDefaultWriter hook); [|reflexivity].
      intros msg w1 Hfmt. unfold mbind at 1, Go_bind at 1.
      rewrite Hfmt. cbn [snd fst]. by destruct (defaultWriter hook).
  - intros Hnot Hmode. unfold LfsHook_Fire. rewrite Hnot, Hmode.
    unfold LfsHook_fileWrite, path_for.
    assert (forall path,
      OpenFile_result (events (add_events w [EvMkdirAll (filepath_Dir path)]))
        path = None ->
      forall msg w1,
        LfsHook_Format hook entry
          (add_events w [EvMkdirAll (filepath_Dir path); EvOpenFile path None])
        = (Returned (msg, None), w1) ->
        (_ ← trace (EvMkdirAll (filepath_Dir path));
         err ← (fun w =>
                  let err := OpenFile_result (events w) path in
                  (Returned err, emit (EvOpenFile path err) w));
         match err with
         | Some err =>
             _ ← trace (EvLogPrintln
                          ("failed to open logfile: " +:+ path +:+ " " +:+ err));
             mret (Some err)
         | None =>
             defer (trace (EvClose path))
               (r ← LfsHook_Format hook entry;
                match r.2 with
                | Some err =>
                    _ ← trace (EvLogPrintln
                                 ("failed to generate string for entry: "
                                  +:+ err));
                    mret (Some err)
                | None =>
                    _ ← trace (EvFileWrite path r.1);
                    mret None
                end)
         end) w =
        (Returned None, add_events w1 [EvFileWrite path msg; EvClose path]))
      as Hpath.
    { intros path Hopen msg w1 Hfmt.
      unfold mbind at 1, Go_bind at 1. rewrite trace_add.
      unfold mbind at 1, Go_bind at 1. cbn zeta. rewrite Hopen.
      change (emit ?e ?w) with (add_events w [e]).
      rewrite add_events_app. cbn [app].
      unfold defer, mbind, Go_bind. rewrite Hfmt. cbn [snd fst].
      rewrite trace_add. unfold mret, Go_ret. rewrite trace_add.
      by rewrite add_events_app. }
    destruct (map_index (paths hook) (Entry_Level entry)) as [path|].
    + apply Hpath.
    + destruct (hasDefaultPath hook); [apply Hpath | reflexivity].
Qed.

End Properties.

(** * The statements at concrete inputs *)

(** C4.  A hook given [&SimpleFormatter{Colored: true}] keeps the
    formatter as it is, and the bytes it writes for an Info entry carry
    the escape sequences. *)
Theorem colored_SimpleFormatter_reaches_the_file :
  formatter colored_hook = Some (SimpleFormatter_ptr {| Colored := true |}) /\
  @LfsHook_Fire (surroundings []) colored_hook (hello_entry InfoLevel None)
    empty_world =
  (Returned None,
   {| events :=
        [EvWrite "app.log"
           (ESC +:+ "[32;1m[2024-03-09 07:05:01.042] [    info] hello"
            +:+ ESC +:+ "[0m" +:+ LF) 54 None];
      buffers := ∅ |}).
Proof. split; [reflexivity|]. vm_compute. reflexivity. Qed.

Example Fatal_below_both_thresholds :
  Logger_Fatal (set_levels New PanicLevel PanicLevel) ["hello"] empty_world =
  (Exited 1,
   {| events := [EvRunHandlers; EvExitFunc os_Exit 1]; buffers := ∅ |}).
Proof. vm_compute. reflexivity. Qed.

Example Fatal_with_test_exit_function :
  (Logger_Fatal (set_ExitFunc New (Some (user_exit 7))) ["hello"]
     empty_world).2 =
  {| events :=
       [EvConsole FatalLevel (Sprint ["hello"]);
        EvFireHooks FatalLevel (Sprint ["hello"]);
        EvRunHandlers; EvExitFunc (user_exit 7) 1];
     buffers := ∅ |}.
Proof. vm_compute. reflexivity. Qed.

Lemma Panic_family_returns_normally_witness :
  Logger_IsLevelEnabled New PanicLevel = true /\
  logged New PanicLevel (Sprint ["hello"]) <> [].
Proof.
  split; [reflexivity|].
  apply (proj2 (proj2 (proj2 (proj2
    (Panic_family_returns_normally New ["hello"] "%s" sample_fn))))).
  reflexivity.
Defined.

Example levels_field_differs_from_Levels :
  levels path_hook = [ErrorLevel] /\ LfsHook_Levels path_hook = AllLevels.
Proof. split; reflexivity. Qed.

Lemma LfsHook_Levels_is_AllLevels_witness :
  InfoLevel ∈ AllLevels /\
  LfsHook_ptr path_hook ∈
    default [] (Hooks (Logger_AddHook New (LfsHook_ptr path_hook)) !! InfoLevel).
Proof.
  assert (InfoLevel ∈ AllLevels) as Hin by (unfold AllLevels; set_solver).
  split; [exact Hin|].
  apply (proj1 (proj2 (@LfsHook_Levels_is_AllLevels (surroundings [])
                         path_hook New))).
  exact Hin.
Defined.

(** C5: the error file cannot be written; the common file is not tried. *)
Lemma fanout_stops_at_the_first_failure :
  @LfsHook_Fire (surroundings [error_file])
    (configured_hook (surroundings [error_file]))
    (hello_entry ErrorLevel None) empty_world =
  (Returned (Some "disk full"),
   {| events := [EvWrite error_file hello_error 0 (Some "disk full")];
      buffers := ∅ |}) /\
  attempted common_file
    (events (@LfsHook_Fire (surroundings [error_file])
               (configured_hook (surroundings [error_file]))
               (hello_entry ErrorLevel None) empty_world).2) = false.
Proof. split; vm_compute; reflexivity. Qed.

Lemma ConfigLocalFileSystemLogger_fans_out_witness :
  destination_name (Entry_Level (hello_entry ErrorLevel None)) = Some "error" /\
  @rotatelogs_New_error (rotation []) (lfs_createFileLogger "error" "logs/app")
  = None /\
  @rotatelogs_New_error (rotation []) (lfs_createFileLogger "" "logs/app")
  = None /\
  exists msg w1,
    @SimpleFormatter_Format (surroundings []) {| Colored := false |}
      (hello_entry ErrorLevel None) empty_world = (Returned (msg, None), w1) /\
    @LfsHook_Fire (surroundings []) (configured_hook (surroundings []))
      (hello_entry ErrorLevel None) empty_world =
    let '(err, w') :=
      @fanout2 (surroundings []) error_file common_file msg w1 in
    (Returned err, w').
Proof.
  split; [reflexivity|]. split; [reflexivity|]. split; [reflexivity|].
  destruct (@ConfigLocalFileSystemLogger_fans_out (surroundings [])
              (rotation []) New "logs" "app" "error"
              (hello_entry ErrorLevel None) empty_world empty_world
              eq_refl eq_refl eq_refl)
    as (hook & std' & Hconfig & Hfire).
  unfold configured_hook. rewrite Hconfig. exact Hfire.
Defined.

(** C6: a default path is set, the level has no writer, nothing is
    written. *)
Lemma Fire_ignores_the_default_path_in_writer_mode :
  map_index (writers mixed_hook) InfoLevel = None /\
  map_index (paths mixed_hook) InfoLevel = None /\
  hasDefaultPath mixed_hook = true /\
  defaultPath mixed_hook = "all.log" /\
  @LfsHook_Fire (surroundings []) mixed_hook (hello_entry InfoLevel None)
    empty_world = (Returned None, empty_world).
Proof. repeat split; vm_compute; reflexivity. Qed.

Lemma Fire_delivers_within_its_mode_witness :
  @LfsHook_Fire (surroundings []) path_hook (hello_entry InfoLevel None)
    empty_world = (Returned None, empty_world) /\
  @LfsHook_Fire (surroundings []) writer_hook (hello_entry InfoLevel None)
    empty_world =
  (r ← @Writer_Write (surroundings []) (NamedWriter "app.log") hello_info;
   mret r.2) empty_world /\
  @LfsHook_Fire (surroundings []) path_hook (hello_entry ErrorLevel None)
    empty_world =
  (Returned None,
   add_events empty_world
     [EvMkdirAll "."; EvOpenFile "error.log" None;
      EvFileWrite "error.log" hello_error; EvClose "error.log"]).
Proof.
  split; [|split].
  - apply (@Fire_delivers_within_its_mode (surroundings []) path_hook
             (hello_entry InfoLevel None) empty_world); reflexivity.
  - pose proof (proj1 (proj2
      (@Fire_delivers_within_its_mode (surroundings []) writer_hook
         (hello_entry InfoLevel None) empty_world)) eq_refl) as Hmode.
    exact (Hmode hello_info empty_world eq_refl).
  - pose proof (proj2 (proj2
      (@Fire_delivers_within_its_mode (surroundings []) path_hook
         (hello_entry ErrorLevel None) empty_world)) eq_refl eq_refl) as Hmode.
    exact (Hmode eq_refl hello_error _ eq_refl).
Defined.

(** C9: formatted twice, an entry with a buffer gives its record the
    first time and the record twice over the second time. *)
Lemma Format_twice_with_a_buffer_differs :
  (@Format_repeatedly (surroundings []) 2 {| Colored := false |}
     (hello_entry InfoLevel (Some 0%nat)) empty_world).1 =
  [Returned (hello_info, None); Returned (hello_info +:+ hello_info, None)]
  /\ hello_info <> hello_info +:+ hello_info.
Proof. split; [vm_compute; reflexivity | discriminate]. Qed.

Lemma SimpleFormatter_Format_repeated_witness :
  Buffer (hello_entry InfoLevel None) = None /\
  @Format_repeatedly (surroundings []) 3 {| Colored := false |}
    (hello_entry InfoLevel None) empty_world =
  (replicate 3 (Returned (hello_info, None)), empty_world) /\
  Buffer (hello_entry InfoLevel (Some 0%nat)) = Some 0%nat /\
  @SimpleFormatter_Format (surroundings []) {| Colored := false |}
    (hello_entry InfoLevel (Some 0%nat)) empty_world =
  (Returned (hello_info, None), Buffer_store 0 hello_info empty_world).
Proof.
  split; [reflexivity|]. split.
  - exact (proj1 (@SimpleFormatter_Format_repeated (surroundings [])
                    {| Colored := false |} (hello_entry InfoLevel None))
             eq_refl 3%nat empty_world).
  - split; [reflexivity|].
    exact (proj2 (@SimpleFormatter_Format_repeated (surroundings [])
                    {| Colored := false |}
                    (hello_entry InfoLevel (Some 0%nat)))
             0%nat eq_refl empty_world).
Defined.

(** * Further properties of the code *)

Section Further.
Context `{Env}.
Context `{Rotation}.

(** ** Function names *)

Lemma string_drop_app (pre t : string) :
  string_drop (String.length pre) (pre +:+ t) = t.
Proof. induction pre as [|c pre IH]; [reflexivity | exact IH]. Qed.

Lemma length_app (s t : string) :
  String.length (s +:+ t) = (String.length s + String.length t)%nat.
Proof.
  induction s as [|c s IH]; [reflexivity|].
  change (S (String.length (s +:+ t)) = S (String.length s + String.length t)).
  by rewrite IH.
Qed.

Lemma prefix_dot (c : ascii) (s : string) :
  String.prefix "." (String c s) = if ascii_dec "."%char c then true else false.
Proof.
  change (String.prefix "." (String c s))
    with (if ascii_dec "."%char c then String.prefix "" s else false).
  destruct (ascii_dec "."%char c); [by destruct s | reflexivity].
Qed.

(** The scan of [strings.LastIndex] for a dot: either no dot is met and
    the accumulator comes back, or the string splits at its last dot. *)
Lemma LastIndex_from_dot (s : string) :
  forall i acc : Z,
    (LastIndex_from s "." i acc = acc /\ has_byte "."%char s = false) \/
    (exists pre suf,
        s = pre +:+ "." +:+ suf /\ has_byte "."%char suf = false /\
        LastIndex_from s "." i acc = (i + Z.of_nat (String.length pre))%Z).
Proof.
  induction s as [|c s IH]; intros i acc.
  - left. split; reflexivity.
  - cbn [LastIndex_from has_byte]. rewrite prefix_dot.
    destruct (ascii_dec "."%char c) as [<-|Hc].
    + destruct (IH (i + 1)%Z i) as [[Hr Hno] | (pre & suf & -> & Hno & Hr)].
      * right. exists "", s. rewrite Hr. cbn. split; [reflexivity|].
        split; [exact Hno | lia].
      * right. exists (String "."%char pre), suf. rewrite Hr.
        split; [reflexivity|]. split; [exact Hno|]. cbn [String.length]. lia.
    + destruct (IH (i + 1)%Z acc) as [[Hr Hno] | (pre & suf & -> & Hno & Hr)].
      * left. by split.
      * right. exists (String c pre), suf. rewrite Hr.
        split; [reflexivity|]. split; [exact Hno|]. cbn [String.length]. lia.
Qed.

(** X1.  [getFuncName] returns what follows the last dot of the
    function's name: a name without a dot comes back whole, otherwise the
    name is some text, a dot, and the result; the result has no dot. *)
Theorem getFuncName_after_last_dot (f : runtime_Func) :
  has_byte "."%char (getFuncName (Some f)) = false /\
  (Func_Name f = getFuncName (Some f) \/
   exists pre, Func_Name f = pre +:+ "." +:+ getFuncName (Some f)).
Proof.
  unfold getFuncName, strings_LastIndex.
  destruct (LastIndex_from_dot (Func_Name f) 0 (-1))
    as [[-> Hno] | (pre & suf & Hname & Hno & ->)].
  - cbn. split; [exact Hno | by left].
  - rewrite Hname.
    replace (Z.to_nat (0 + Z.of_nat (String.length pre) + 1))
      with (String.length (pre +:+ ".")) by (rewrite length_app; cbn; lia).
    rewrite <- append_assoc, string_drop_app.
    split; [exact Hno|]. right. exists pre. by rewrite append_assoc.
Qed.

(** ** Colours *)

(** X2.  With [Colored] set, [Format] produces the uncoloured record
    wrapped in the colour sequence of the level and the reset sequence,
    the newline staying last.  For a value outside the seven levels
    there is no colour sequence, but the reset sequence is still
    written.  The error is nil in both modes. *)
Theorem SimpleFormatter_colour_wraps_record (entry : Entry) (w : World) :
  Buffer entry = None ->
  exists body,
    SimpleFormatter_Format {| Colored := false |} entry w =
    (Returned (body +:+ LF, None), w) /\
    SimpleFormatter_Format {| Colored := true |} entry w =
    (Returned (level_colour (Entry_Level entry) +:+ body +:+ ESC +:+ "[0m"
               +:+ LF, None), w).
Proof.
  intros Hnil. unfold SimpleFormatter_Format. rewrite Hnil.
  unfold SimpleFormatter_writes, WriteString. cbn [Colored].
  eexists. split; [reflexivity|]. f_equal. f_equal. f_equal.
  assert ((if (Entry_Level entry =? TraceLevel)%N
              || (Entry_Level entry =? DebugLevel)%N
           then "" +:+ ESC +:+ "[34;1m"
           else if (Entry_Level entry =? InfoLevel)%N
           then "" +:+ ESC +:+ "[32;1m"
           else if (Entry_Level entry =? WarnLevel)%N
           then "" +:+ ESC +:+ "[35;1m"
           else if (Entry_Level entry =? ErrorLevel)%N
                   || (Entry_Level entry =? FatalLevel)%N
                   || (Entry_Level entry =? PanicLevel)%N
           then "" +:+ ESC +:+ "[31;1m" else "")
          = level_colour (Entry_Level entry)) as ->.
  { unfold level_colour, TraceLevel, DebugLevel, InfoLevel, WarnLevel,
      ErrorLevel, FatalLevel, PanicLevel.
    repeat match goal with
           | |- context [(?a =? ?b)%N] => destruct (N.eqb_spec a b)
           | |- context [(?a <=? ?b)%N] => destruct (N.leb_spec a b)
           end; cbn [orb]; try reflexivity; lia. }
  destruct (Caller entry); [destruct (Logger_ReportCaller entry)|];
    rewrite !append_assoc; reflexivity.
Qed.

(** ** Thresholds, hooks table, mutex *)

(** X3.  [SetLevel] reads its first two arguments only.  After
    [SetLevel(c)] a level is enabled exactly when it is at most [c];
    after [SetLevel(c, h)] exactly when it is at most the larger of [c]
    and [h], while [GetLevel] reports [c] alone. *)
Theorem SetLevel_then_IsLevelEnabled (logger : Logger) (c h : Level)
  (rest : list Level) (L : Level) :
  Logger_SetLevel logger (c :: h :: rest) = Logger_SetLevel logger [c; h] /\
  (Logger_IsLevelEnabled (Logger_SetLevel logger [c]) L = true <->
   (L <= c)%N) /\
  (Logger_IsLevelEnabled (Logger_SetLevel logger [c; h]) L = true <->
   (L <= N.max c h)%N) /\
  Logger_GetLevel (Logger_SetLevel logger [c; h]) = c.
Proof.
  split; [reflexivity|].
  unfold Logger_IsLevelEnabled, Logger_GetLevel, Logger_consoleLevel,
    Logger_hookLevel, Level_ge. cbn.
  rewrite !orb_true_iff, !N.leb_le. repeat split; lia.
Qed.

(** X4.  [ReplaceHooks] installs the new table and returns the one it
    replaced; replacing again with the returned table gives back the
    original logger and hands back the table that was installed. *)
Theorem ReplaceHooks_round_trip (logger : Logger)
  (hooks : gmap Level (list Hook)) :
  (Logger_ReplaceHooks logger hooks).1 = Hooks logger /\
  Hooks (Logger_ReplaceHooks logger hooks).2 = hooks /\
  Logger_ReplaceHooks (Logger_ReplaceHooks logger hooks).2
    (Logger_ReplaceHooks logger hooks).1 = (hooks, logger).
Proof. destruct logger. repeat split; reflexivity. Qed.

(** X5.  Once [Disable] has been called, every later [Lock], [Unlock]
    and [Disable] returns at once and leaves the mutex as it is: the
    flag is never cleared and the inner mutex is never touched again.
    In particular a mutex disabled while held stays held: after [Lock],
    [Disable], [Unlock] the inner mutex is still locked. *)
Theorem MutexWrap_disabled_for_good (ops : list MutexOp) (mw : MutexWrap) :
  MutexWrap_run ops (MutexWrap_Disable mw) = Done (MutexWrap_Disable mw) /\
  MutexWrap_run [OpLock; OpDisable; OpUnlock]
    {| held := false; disabled := false |} =
  Done {| held := true; disabled := true |}.
Proof.
  split; [|reflexivity].
  induction ops as [|[] ops IH]; [reflexivity| exact IH..].
Qed.

(** ** File names *)

Lemma append_cons (c : ascii) (s t : string) :
  String c s +:+ t = String c (s +:+ t).
Proof. reflexivity. Qed.

Lemma append_cancel_l (p a b : string) : p +:+ a = p +:+ b -> a = b.
Proof.
  induction p as [|c p IH]; [done|].
  rewrite !append_cons. intros [= Heq]. by apply IH.
Qed.

Lemma append_cancel_r (t : string) :
  forall a b : string, a +:+ t = b +:+ t -> a = b.
Proof.
  induction a as [|c a IH]; intros [|d b] Heq.
  - reflexivity.
  - apply (f_equal String.length) in Heq.
    rewrite append_cons in Heq. cbn [String.length] in Heq.
    rewrite !length_app in Heq. cbn in Heq. lia.
  - apply (f_equal String.length) in Heq.
    rewrite append_cons in Heq. cbn [String.length] in Heq.
    rewrite !length_app in Heq. cbn in Heq. lia.
  - rewrite !append_cons in Heq. injection Heq as -> Heq.
    f_equal. by apply IH.
Qed.

Lemma level_prefix_inj (l1 l2 : string) :
  (if (0 <? String.length l1)%nat then "." +:+ l1 else "") =
  (if (0 <? String.length l2)%nat then "." +:+ l2 else "") ->
  l1 = l2.
Proof.
  destruct l1, l2; cbn; intros Heq; try discriminate; [reflexivity|].
  by injection Heq as -> ->.
Qed.

(** X6.  Both [createFileLogger] functions give different levels
    different file name patterns under one path.  The one of package
    [logrus] also gives them different link names; the one of package
    [lfs] gives every level the same link name, the path followed by
    ".log". *)
Theorem createFileLogger_names (std : Logger) (l1 l2 logPath : string) :
  l1 <> l2 ->
  pattern (createFileLogger std l1 logPath) <>
  pattern (createFileLogger std l2 logPath) /\
  pattern (lfs_createFileLogger l1 logPath) <>
  pattern (lfs_createFileLogger l2 logPath) /\
  WithLinkName (createFileLogger std l1 logPath) <>
  WithLinkName (createFileLogger std l2 logPath) /\
  WithLinkName (lfs_createFileLogger l1 logPath) =
  WithLinkName (lfs_createFileLogger l2 logPath).
Proof.
  intros Hne. unfold createFileLogger, lfs_createFileLogger, rotatelogs_New.
  cbn [pattern WithLinkName].
  repeat split; intros Heq; apply Hne, level_prefix_inj;
    by apply append_cancel_l, append_cancel_r in Heq.
Qed.

(** ** Log calls and the entry pool *)

(** X7.  A log call at a level that is not enabled does nothing: the
    logger (its pool included) and the world are as before, and a
    [LogFunction] is not called.  This holds for [Log], [Logf], [Logln],
    [LogFn] at any level and for each level-named method from [Trace] to
    [Error] and [Panic]. *)
Theorem disabled_level_does_nothing (logger : Logger) (level : Level)
  (args : list string) (format : string) (fn : LogFunction) (w : World) :
  Logger_IsLevelEnabled logger level = false ->
  Logger_Log logger level args w = (Returned logger, w) /\
  Logger_Logf logger level format args w = (Returned logger, w) /\
  Logger_Logln logger level args w = (Returned logger, w) /\
  Logger_LogFn logger level fn w = (Returned logger, w) /\
  (forall call : Go Logger,
     (level, call) ∈ level_methods logger args format fn ->
     call w = (Returned logger, w)).
Proof.
  intros Hoff.
  assert (Logger_Log logger level args w = (Returned logger, w)) as HLog
    by (unfold Logger_Log; by rewrite Hoff).
  assert (Logger_Logf logger level format args w = (Returned logger, w))
    as HLogf by (unfold Logger_Logf; by rewrite Hoff).
  assert (Logger_Logln logger level args w = (Returned logger, w)) as HLogln
    by (unfold Logger_Logln; by rewrite Hoff).
  assert (Logger_LogFn logger level fn w = (Returned logger, w)) as HLogFn
    by (unfold Logger_LogFn; by rewrite Hoff).
  refine (conj HLog (conj HLogf (conj HLogln (conj HLogFn _)))).
  intros call Hin. unfold level_methods in Hin.
  repeat (apply elem_of_cons in Hin as [Heq | Hin];
          [ injection Heq as Hl ->; rewrite Hl in *;
            first [exact HLog | exact HLogf | exact HLogln | exact HLogFn]
          | ]).
  by apply elem_of_nil in Hin.
Qed.




(** ** The hook: construction, firing, events *)

Lemma leaf_Write_returns (dest p : string) (w : World) :
  exists r es,
    leaf_Write dest p w = (Returned r, add_events w es) /\
    Forall (fun e => is_writer_event e = true) es.
Proof.
  unfold leaf_Write. eexists _, [_]. split; [reflexivity|].
  by repeat constructor.
Qed.

(** A write through any writer returns or panics (on a nil writer), and
    adds nothing but writes to the trace. *)
Lemma Writer_Write_shape :
  forall (wr : Writer) (p : string) (w : World),
  exists o es,
    Writer_Write wr p w = (o, add_events w es) /\
    Forall (fun e => is_writer_event e = true) es /\
    (forall c, o <> Exited c).
Proof.
  fix IH 1. intros [rl | name | ws |] p w.
  - destruct (leaf_Write_returns (dest_of_RotateLogs rl) p w)
      as (r & es & Hw & Hes).
    exists (Returned r), es. by repeat split.
  - destruct (leaf_Write_returns name p w) as (r & es & Hw & Hes).
    exists (Returned r), es. by repeat split.
  - cbn [Writer_Write]. revert w.
    induction ws as [|wr ws IHws]; intros w.
    + exists (Returned (len p, None)), []. rewrite add_events_nil.
      by repeat split.
    + destruct (IH wr p w) as (o & es & Hw & Hes & Hnoexit).
      unfold mbind, Go_bind. rewrite Hw.
      destruct o as [[n [e|]] | v | c]; cbn [fst snd].
      * exists (Returned (n, Some e)), es. by repeat split.
      * destruct (n =? len p)%Z.
        -- destruct (IHws (add_events w es))
             as (o' & es' & Hw' & Hes' & Hnoexit').
           exists o', (es ++ es')%list. rewrite <- add_events_app.
           split; [exact Hw'|]. split; [by apply Forall_app | exact Hnoexit'].
        -- exists (Returned (n, Some ErrShortWrite)), es. by repeat split.
      * exists (Panicked v), es. by repeat split.
      * by destruct (Hnoexit c).
  - exists (Panicked nil_dereference), []. cbn [Writer_Write].
    unfold panic. rewrite add_events_nil. by repeat split.
Qed.

Lemma SimpleFormatter_Format_returns (f : SimpleFormatter) (entry : Entry)
  (w : World) :
  exists b w',
    SimpleFormatter_Format f entry w = (Returned (b, None), w') /\
    events w' = events w.
Proof.
  unfold SimpleFormatter_Format. destruct (Buffer entry); eauto.
Qed.

Lemma Formatter_Format_returns (fm : Formatter) (entry : Entry) (w : World) :
  exists r w',
    Formatter_Format fm entry w = (Returned r, w') /\ events w' = events w.
Proof.
  destruct fm as [f | f | format]; cbn [Formatter_Format].
  - eexists _, _. split; reflexivity.
  - destruct (SimpleFormatter_Format_returns f entry w) as (b & w' & -> & Hev).
    eauto.
  - eexists _, _. split; reflexivity.
Qed.


Lemma LfsHook_Format_shape (hook : LfsHook) (entry : Entry) (w : World) :
  exists o w',
    LfsHook_Format hook entry w = (o, w') /\ events w' = events w /\
    (formatter hook <> None -> exists r, o = Returned r) /\
    (forall v, o <> Exited v).
Proof.
  unfold LfsHook_Format. destruct (formatter hook) as [fm|].
  - destruct (Formatter_Format_returns fm entry w) as (r & w' & -> & Hev).
    eexists _, _. split; [reflexivity|]. split; [exact Hev|].
    split; [eauto | discriminate].
  - eexists _, _. split; [reflexivity|]. split; [reflexivity|].
    split; [done | discriminate].
Qed.

(** What [ioWrite] does once it has a writer, possibly nil. *)
Lemma ioWrite_deliver (hook : LfsHook) (entry : Entry)
  (writer : option Writer) (w : World) :
  exists o w' es,
    (r ← LfsHook_Format hook entry;
     match r.2 with
     | Some err =>
         _ ← trace (EvLogPrintln
                      ("failed to generate string for entry: " +:+ err));
         mret (Some err)
     | None =>
         match writer with
         | Some writer => r' ← Writer_Write writer r.1; mret r'.2
         | None => panic nil_dereference
         end
     end) w = (o, w') /\
    events w' = (events w ++ es)%list /\
    Forall (fun e => is_writer_event e = true) es.
Proof.
  destruct (LfsHook_Format_shape hook entry w)
    as (o & w1 & Hf & Hev & _ & Hnoexit).
  unfold mbind at 1, Go_bind at 1. rewrite Hf.
  destruct o as [[b [err|]] | v | c]; cbn [fst snd].
  - eexists _, _, [_]. split; [reflexivity|]. cbn. rewrite Hev.
    split; [reflexivity | by repeat constructor].
  - destruct writer as [writer|].
    + destruct (Writer_Write_shape writer b w1)
        as (o & es & Hw & Hes & Hnoexit').
      unfold mbind, Go_bind. rewrite Hw.
      destruct o as [r' | v | c].
      * eexists _, _, es. split; [reflexivity|]. cbn. rewrite Hev.
        by split.
      * eexists _, _, es. split; [reflexivity|]. cbn. rewrite Hev.
        by split.
      * by destruct (Hnoexit' c).
    + eexists _, _, []. split; [reflexivity|]. rewrite app_nil_r.
      split; [exact Hev | constructor].
  - eexists _, _, []. split; [reflexivity|]. rewrite app_nil_r.
    split; [exact Hev | constructor].
  - by destruct (Hnoexit c).
Qed.

Lemma ioWrite_shape (hook : LfsHook) (entry : Entry) (w : World) :
  exists o w' es,
    LfsHook_ioWrite hook entry w = (o, w') /\
    events w' = (events w ++ es)%list /\
    Forall (fun e => is_writer_event e = true) es.
Proof.
  unfold LfsHook_ioWrite.
  destruct (map_index (writers hook) (Entry_Level entry)) as [writer|].
  - apply (ioWrite_deliver hook entry (Some writer) w).
  - destruct (hasDefaultWriter hook).
    + apply (ioWrite_deliver hook entry (defaultWriter hook) w).
    + eexists _, _, []. rewrite app_nil_r. repeat split; eauto.
Qed.

(** What [fileWrite] does between opening the file and closing it. *)
Lemma fileWrite_deliver (hook : LfsHook) (entry : Entry) (path : string)
  (w : World) :
  exists o w' es,
    defer (trace (EvClose path))
      (r ← LfsHook_Format hook entry;
       match r.2 with
       | Some err =>
           _ ← trace (EvLogPrintln
                        ("failed to generate string for entry: " +:+ err));
           mret (Some err)
       | None =>
           _ ← trace (EvFileWrite path r.1);
           mret None
       end) w = (o, w') /\
    events w' = (events w ++ es ++ [EvClose path])%list /\
    Forall (fun e => match e with
                     | EvFileWrite _ _ | EvLogPrintln _ => True
                     | _ => False
                     end) es.
Proof.
  destruct (LfsHook_Format_shape hook entry w)
    as (o & w1 & Hf & Hev & _ & Hnoexit).
  unfold defer. unfold mbind at 1, Go_bind at 1. rewrite Hf.
  destruct o as [[b [err|]] | v | c]; cbn [fst snd].
  - eexists _, _, [_]. split; [reflexivity|]. cbn. rewrite Hev.
    split; [by rewrite <- app_assoc | by repeat constructor].
  - eexists _, _, [_]. split; [reflexivity|]. cbn. rewrite Hev.
    split; [by rewrite <- app_assoc | by repeat constructor].
  - eexists _, _, []. split; [reflexivity|]. cbn. rewrite Hev.
    split; [reflexivity | constructor].
  - by destruct (Hnoexit c).
Qed.

Lemma fileWrite_opened (hook : LfsHook) (entry : Entry) (path : string)
  (w : World) :
  (_ ← trace (EvMkdirAll (filepath_Dir path));
   err ← (fun w =>
            let err := OpenFile_result (events w) path in
            (Returned err, emit (EvOpenFile path err) w));
   match err with
   | Some err =>
       _ ← trace (EvLogPrintln
                    ("failed to open logfile: " +:+ path +:+ " " +:+ err));
       mret (Some err)
   | None =>
       defer (trace (EvClose path))
         (r ← LfsHook_Format hook entry;
          match r.2 with
          | Some err =>
              _ ← trace (EvLogPrintln
                           ("failed to generate string for entry: "
                            +:+ err));
              mret (Some err)
          | None =>
              _ ← trace (EvFileWrite path r.1);
              mret None
          end)
   end) w =
  match OpenFile_result (events (add_events w [EvMkdirAll (filepath_Dir path)]))
          path with
  | Some err =>
      (Returned (Some err),
       add_events w
         [EvMkdirAll (filepath_Dir path); EvOpenFile path (Some err);
          EvLogPrintln ("failed to open logfile: " +:+ path +:+ " " +:+ err)])
  | None =>
      defer (trace (EvClose path))
        (r ← LfsHook_Format hook entry;
         match r.2 with
         | Some err =>
             _ ← trace (EvLogPrintln
                          ("failed to generate string for entry: " +:+ err));
             mret (Some err)
         | None =>
             _ ← trace (EvFileWrite path r.1);
             mret None
         end)
        (add_events w [EvMkdirAll (filepath_Dir path); EvOpenFile path None])
  end.
Proof.
  unfold mbind at 1, Go_bind at 1. rewrite trace_add.
  unfold mbind at 1, Go_bind at 1. cbn zeta.
  change (emit ?e ?w) with (add_events w [e]). rewrite add_events_app.
  destruct (OpenFile_result _ path) as [err|]; [|reflexivity].
  unfold mbind, Go_bind. rewrite trace_add, add_events_app. reflexivity.
Qed.

Lemma fileWrite_shape (hook : LfsHook) (entry : Entry) (w : World) :
  exists o w' es,
    LfsHook_fileWrite hook entry w = (o, w') /\
    events w' = (events w ++ es)%list /\
    Forall (fun e => is_file_event e = true) es.
Proof.
  unfold LfsHook_fileWrite.
  change (match map_index (paths hook) (Entry_Level entry) with
          | Some path => Some path
          | None => if hasDefaultPath hook then Some (defaultPath hook)
                    else None
          end) with (path_for hook (Entry_Level entry)).
  destruct (path_for hook (Entry_Level entry)) as [path|].
  - rewrite fileWrite_opened.
    destruct (OpenFile_result _ path) as [err|].
    + eexists _, _, _. split; [reflexivity|]. split; [reflexivity|].
      by repeat constructor.
    + destruct (fileWrite_deliver hook entry path
                  (add_events w [EvMkdirAll (filepath_Dir path);
                                 EvOpenFile path None]))
        as (o & w' & es & -> & Hev & Hes).
      eexists _, _, _. split; [reflexivity|]. rewrite Hev.
      cbn [events add_events].
      rewrite <- app_assoc. split; [reflexivity|].
      repeat (apply Forall_cons; split; [reflexivity|]).
      apply Forall_app. split; [|by repeat constructor].
      eapply Forall_impl; [exact Hes|]. by intros [].
  - eexists _, _, []. rewrite app_nil_r. repeat split; eauto.
Qed.

(** X12.  In writer mode [Fire] never touches the file system: all it
    adds to the trace are writes to writers and lines on the fallback
    log, even when a path map or a default path is set as well.  In
    path mode it never writes to a writer: it adds only directory,
    open, file-write and close events and fallback lines. *)
Theorem Fire_events_by_mode (hook : LfsHook) (entry : Entry) (w : World) :
  exists es,
    events (LfsHook_Fire hook entry w).2 = (events w ++ es)%list /\
    if non_nil (writers hook) || hasDefaultWriter hook
    then Forall (fun e => is_writer_event e = true) es
    else Forall (fun e => is_file_event e = true) es.
Proof.
  unfold LfsHook_Fire.
  destruct (non_nil (writers hook) || hasDefaultWriter hook).
  - destruct (ioWrite_shape hook entry w) as (o & w' & es & -> & Hev & Hes).
    by exists es.
  - destruct (non_nil (paths hook) || hasDefaultPath hook).
    + destruct (fileWrite_shape hook entry w)
        as (o & w' & es & -> & Hev & Hes).
      by exists es.
    + exists []. by rewrite app_nil_r.
Qed.

Lemma path_mode_of_path_for (hook : LfsHook) (level : Level) (path : string) :
  path_for hook level = Some path ->
  non_nil (paths hook) || hasDefaultPath hook = true.
Proof.
  unfold path_for, map_index.
  destruct (paths hook) as [m|]; cbn; [done|].
  by destruct (hasDefaultPath hook).
Qed.

(** X13.  In path mode, for a level that has a path: if the file cannot
    be opened, [Fire] returns the error of the open, reports it on the
    fallback log, and neither writes nor closes anything; if the file is
    opened, it is closed again as the last thing [Fire] does, whatever
    happens in between, and in between there is at most the one write
    or the one fallback line. *)
Theorem fileWrite_open_and_close (hook : LfsHook) (entry : Entry)
  (path : string) (w : World) :
  non_nil (writers hook) || hasDefaultWriter hook = false ->
  path_for hook (Entry_Level entry) = Some path ->
  let dir := filepath_Dir path in
  match OpenFile_result (events (add_events w [EvMkdirAll dir])) path with
  | Some err =>
      LfsHook_Fire hook entry w =
      (Returned (Some err),
       add_events w
         [EvMkdirAll dir; EvOpenFile path (Some err);
          EvLogPrintln ("failed to open logfile: " +:+ path +:+ " " +:+ err)])
  | None =>
      exists es,
        events (LfsHook_Fire hook entry w).2 =
        (events w ++ [EvMkdirAll dir; EvOpenFile path None] ++ es
         ++ [EvClose path])%list /\
        length es <= 1 /\
        Forall (fun e => match e with
                         | EvFileWrite _ _ | EvLogPrintln _ => True
                         | _ => False
                         end) es
  end.
Proof.
  intros Hnot Hpath. cbn zeta. unfold LfsHook_Fire.
  rewrite Hnot, (path_mode_of_path_for _ _ _ Hpath).
  unfold LfsHook_fileWrite.
  change (match map_index (paths hook) (Entry_Level entry) with
          | Some path => Some path
          | None => if hasDefaultPath hook then Some (defaultPath hook)
                    else None
          end) with (path_for hook (Entry_Level entry)).
  rewrite Hpath, fileWrite_opened.
  destruct (OpenFile_result _ path) as [err|]; [reflexivity|].
  destruct (LfsHook_Format_shape hook entry
              (add_events w [EvMkdirAll (filepath_Dir path);
                             EvOpenFile path None]))
    as (o & w1 & Hf & Hev & _ & Hnoexit).
  unfold defer. unfold mbind at 1, Go_bind at 1. rewrite Hf.
  destruct o as [[b [err|]] | v | c]; cbn [fst snd].
  - exists [EvLogPrintln ("failed to generate string for entry: " +:+ err)].
    unfold mbind, Go_bind, trace, mret, Go_ret, emit. cbn.
    rewrite Hev. cbn. rewrite <- !app_assoc.
    split; [reflexivity|]. split; [lia | by repeat constructor].
  - exists [EvFileWrite path b].
    unfold mbind, Go_bind, trace, mret, Go_ret, emit. cbn.
    rewrite Hev. cbn. rewrite <- !app_assoc.
    split; [reflexivity|]. split; [lia | by repeat constructor].
  - exists []. unfold trace, emit. cbn. rewrite Hev. cbn.
    rewrite <- !app_assoc.
    split; [reflexivity|]. split; [lia | constructor].
  - by destruct (Hnoexit c).
Qed.

(** X14.  When the hook's formatter fails, [Fire] returns the
    formatter's error and the destination receives nothing: in writer
    mode the only event is the line on the fallback log; in path mode
    the file is opened and closed with nothing written. *)
Theorem Fire_formatter_error (hook : LfsHook) (entry : Entry)
  (format : Entry -> string * option error) (b : string) (err : error)
  (w : World) :
  formatter hook = Some (OtherFormatter format) ->
  format entry = (b, Some err) ->
  let line :=
    EvLogPrintln ("failed to generate string for entry: " +:+ err) in
  (non_nil (writers hook) || hasDefaultWriter hook = true ->
   writer_for hook (Entry_Level entry) <> None ->
   LfsHook_Fire hook entry w = (Returned (Some err), add_events w [line])) /\
  (non_nil (writers hook) || hasDefaultWriter hook = false ->
   forall path,
     path_for hook (Entry_Level entry) = Some path ->
     OpenFile_result
       (events (add_events w [EvMkdirAll (filepath_Dir path)])) path = None ->
     LfsHook_Fire hook entry w =
     (Returned (Some err),
      add_events w
        [EvMkdirAll (filepath_Dir path); EvOpenFile path None; line;
         EvClose path])).
Proof.
  intros Hfm Hformat. cbn zeta. split.
  - intros Hmode Hwriter. unfold LfsHook_Fire. rewrite Hmode.
    unfold LfsHook_ioWrite, writer_for in *.
    destruct (map_index (writers hook) (Entry_Level entry)) as [writer|].
    + unfold mbind, Go_bind, LfsHook_Format. rewrite Hfm. cbn.
      rewrite Hformat. reflexivity.
    + destruct (hasDefaultWriter hook); [|done].
      unfold mbind, Go_bind, LfsHook_Format. rewrite Hfm. cbn.
      rewrite Hformat. reflexivity.
  - intros Hnot path Hpath Hopen. unfold LfsHook_Fire.
    rewrite Hnot, (path_mode_of_path_for _ _ _ Hpath).
    unfold LfsHook_fileWrite.
    change (match map_index (paths hook) (Entry_Level entry) with
            | Some path => Some path
            | None => if hasDefaultPath hook then Some (defaultPath hook)
                      else None
            end) with (path_for hook (Entry_Level entry)).
    rewrite Hpath, fileWrite_opened, Hopen.
    unfold defer, mbind, Go_bind, LfsHook_Format. rewrite Hfm. cbn.
    rewrite Hformat. cbn. unfold mret, Go_ret.
    repeat change (emit ?e ?w) with (add_events w [e]).
    by rewrite !add_events_app.
Qed.

(** X15.  Whether or not the rotating files could be created, the hook
    that [ConfigLocalFileSystemLogger] of package [lfs] builds has no
    destination for Trace, nor for any value above it: such an entry is
    dropped without a write, without an error and without a panic. *)
Theorem ConfigLocalFileSystemLogger_drops_Trace (std : Logger)
  (logPath logFileName : string) (entry : Entry) (w0 w : World) :
  (TraceLevel <= Entry_Level entry)%N ->
  exists hook std' w0',
    lfs_ConfigLocalFileSystemLogger std logPath logFileName w0 =
    (Returned (hook, std'), w0') /\
    LfsHook_Fire hook entry w = (Returned None, w).
Proof.
  intros Hlevel. unfold TraceLevel in Hlevel.
  pose proof (lfs_ConfigLocalFileSystemLogger_returns std logPath
                logFileName w0) as Hshape.
  cbn zeta beta in Hshape.
  destruct Hshape
    as (hook & std' & w0' & Hconfig & _ & _ & Hdw & Hwriters).
  exists hook, std', w0'. split; [exact Hconfig|].
  unfold LfsHook_Fire, LfsHook_ioWrite, map_index.
  rewrite Hwriters, Hdw. cbn [non_nil orb mbind option_bind].
  rewrite !lookup_insert_ne, lookup_empty
    by (unfold DebugLevel, InfoLevel, WarnLevel, ErrorLevel, FatalLevel,
          PanicLevel; lia).
  reflexivity.
Qed.

End Further.

(** * The further properties at concrete inputs *)

Lemma SimpleFormatter_colour_wraps_record_witness :
  Buffer (hello_entry InfoLevel None) = None /\
  exists body,
    @SimpleFormatter_Format (surroundings []) {| Colored := false |}
      (hello_entry InfoLevel None) empty_world =
    (Returned (body +:+ LF, None), empty_world) /\
    @SimpleFormatter_Format (surroundings []) {| Colored := true |}
      (hello_entry InfoLevel None) empty_world =
    (Returned (level_colour InfoLevel +:+ body +:+ ESC +:+ "[0m" +:+ LF,
               None), empty_world).
Proof.
  split; [reflexivity|].
  exact (@SimpleFormatter_colour_wraps_record (surroundings [])
           (hello_entry InfoLevel None) empty_world eq_refl).
Defined.

Lemma createFileLogger_names_witness :
  "debug" <> "info" /\
  pattern (createFileLogger New "debug" "logs/app") <>
  pattern (createFileLogger New "info" "logs/app").
Proof.
  assert ("debug" <> "info") as Hne by discriminate.
  split; [exact Hne|].
  exact (proj1 (createFileLogger_names New "debug" "info" "logs/app" Hne)).
Defined.

Lemma disabled_level_does_nothing_witness :
  Logger_IsLevelEnabled quiet_logger InfoLevel = false /\
  Logger_LogFn quiet_logger InfoLevel sample_fn empty_world =
  (Returned quiet_logger, empty_world) /\
  Logger_Infof quiet_logger "%s" ["hello"] empty_world =
  (Returned quiet_logger, empty_world).
Proof.
  split; [reflexivity|].
  destruct (disabled_level_does_nothing quiet_logger InfoLevel ["hello"]
              "%s" sample_fn empty_world eq_refl)
    as (_ & _ & _ & HLogFn & Hnamed).
  split; [exact HLogFn|].
  apply Hnamed. unfold level_methods.
  apply list_elem_of_further, list_elem_of_further, list_elem_of_here.
Defined.



Lemma fileWrite_open_and_close_witness :
  non_nil (writers path_hook) || hasDefaultWriter path_hook = false /\
  path_for path_hook (Entry_Level (hello_entry ErrorLevel None))
  = Some "error.log" /\
  exists es,
    events (@LfsHook_Fire (surroundings []) path_hook
              (hello_entry ErrorLevel None) empty_world).2 =
    (events empty_world ++ [EvMkdirAll "."; EvOpenFile "error.log" None] ++ es
     ++ [EvClose "error.log"])%list /\
    length es <= 1 /\
    Forall (fun e => match e with
                     | EvFileWrite _ _ | EvLogPrintln _ => True
                     | _ => False
                     end) es.
Proof.
  split; [reflexivity|]. split; [reflexivity|].
  exact (@fileWrite_open_and_close (surroundings []) path_hook
           (hello_entry ErrorLevel None) "error.log" empty_world
           eq_refl eq_refl).
Defined.

Lemma Fire_formatter_error_witness :
  @LfsHook_Fire (surroundings []) failing_writer_hook
    (hello_entry InfoLevel None) empty_world =
  (Returned (Some "bad entry"),
   add_events empty_world
     [EvLogPrintln "failed to generate string for entry: bad entry"]) /\
  @LfsHook_Fire (surroundings []) failing_path_hook
    (hello_entry InfoLevel None) empty_world =
  (Returned (Some "bad entry"),
   add_events empty_world
     [EvMkdirAll "."; EvOpenFile "all.log" None;
      EvLogPrintln "failed to generate string for entry: bad entry";
      EvClose "all.log"]).
Proof.
  split.
  - apply (proj1 (@Fire_formatter_error (surroundings []) failing_writer_hook
                    (hello_entry InfoLevel None) failing_format ""
                    "bad entry" empty_world eq_refl eq_refl));
      [reflexivity | discriminate].
  - exact (proj2 (@Fire_formatter_error (surroundings []) failing_path_hook
                    (hello_entry InfoLevel None) failing_format ""
                    "bad entry" empty_world eq_refl eq_refl)
             eq_refl "all.log" eq_refl eq_refl).
Defined.

Lemma ConfigLocalFileSystemLogger_drops_Trace_witness :
  (TraceLevel <= Entry_Level (hello_entry TraceLevel None))%N /\
  exists hook std' w0',
    @lfs_ConfigLocalFileSystemLogger (surroundings [])
      (rotation [error_file; common_file]) New "logs" "app" empty_world
    = (Returned (hook, std'), w0') /\
    @LfsHook_Fire (surroundings []) hook (hello_entry TraceLevel None)
      empty_world = (Returned None, empty_world).
Proof.
  assert (TraceLevel <= Entry_Level (hello_entry TraceLevel None))%N as Hle
    by (cbn; lia).
  split; [exact Hle|].
  exact (@ConfigLocalFileSystemLogger_drops_Trace (surroundings [])
           (rotation [error_file; common_file]) New "logs" "app"
           (hello_entry TraceLevel None) empty_world empty_world Hle).
Defined.
